(** * Lecture notes pipeline: chunking, cache keys and note generation

    A shallow embedding of [src/note_generator.py] and of the cache-key
    part of [src/utils.py], with the properties of the transcript chunker,
    the generation orchestrator, the model availability check and the file
    fingerprint.

    Conventions of the embedding.
    - A Python [str] is a Rocq [string]; its characters are read as the
      code points below 256.
    - A Python [int] is a [Z]; [len] results are converted from [nat].
    - A Python [float] that takes part in arithmetic whose rounding matters
      ([words * 1.3]) is an IEEE 754 binary64 value, a [spec_float] with
      [prec = 53] and [emax = 1024].  Timestamps in seconds are only
      floor-divided and reduced modulo 3600 and 60, operations that are
      exact on the non-negative binary64 values a timestamp takes, and
      are rationals [Q].
    - A Python dict used as a struct is a record; a key that the code only
      reads through [.get(key, default)] is an [option] field. *)

From Stdlib Require Import ZArith QArith Qround List String Ascii Bool Lia.
From Stdlib Require Import Floats.SpecFloat.
From Stdlib Require Import Numbers.DecimalString Numbers.DecimalZ.
From Stdlib Require Numbers.DecimalFacts Numbers.DecimalPos.
Import ListNotations.

Local Open Scope string_scope.
Local Open Scope Z_scope.

(* ------------------------------------------------------------------ *)
(** ** Python string operations *)

Module PyStr.

(** [str.isspace] on one character, for the code points below 256:
    TAB, LF, VT, FF, CR, the separators FS GS RS US, SPACE, NEL and
    NO-BREAK SPACE. *)
Definition is_space (c : ascii) : bool :=
  let n := nat_of_ascii c in
  ((9 <=? n) && (n <=? 13))%nat
  || ((28 <=? n) && (n <=? 32))%nat
  || (n =? 133)%nat || (n =? 160)%nat.

(** [s.split()]: the maximal runs of non-whitespace characters, in
    order.  [cur] is the word being read, kept reversed. *)
Fixpoint split_aux (cur : list ascii) (s : string) : list string :=
  match s with
  | EmptyString =>
      match cur with
      | [] => []
      | _ => [string_of_list_ascii (rev cur)]
      end
  | String c s' =>
      if is_space c then
        match cur with
        | [] => split_aux [] s'
        | _ => string_of_list_ascii (rev cur) :: split_aux [] s'
        end
      else split_aux (c :: cur) s'
  end.

Definition split (s : string) : list string := split_aux [] s.

(** [sep.join(parts)]. *)
Fixpoint join (sep : string) (parts : list string) : string :=
  match parts with
  | [] => ""
  | [p] => p
  | p :: rest => p ++ sep ++ join sep rest
  end.

(** [s.startswith(p)]. *)
Definition startswith (s p : string) : bool := String.prefix p s.

(** [s.split(sep)[0]] for a one-character separator: the part of [s]
    before the first occurrence of [sep], all of [s] when there is
    none. *)
Fixpoint split_first (sep : ascii) (s : string) : string :=
  match s with
  | EmptyString => EmptyString
  | String c s' =>
      if Ascii.eqb c sep then EmptyString else String c (split_first sep s')
  end.

(** [str(n)] for an int. *)
Definition of_int (z : Z) : string := NilZero.string_of_int (Z.to_int z).

(** [f"{z:02d}"]: sign, then the digits zero-padded so that the whole
    field is at least two characters wide. *)
Definition format_02d (z : Z) : string :=
  if z <? 0 then of_int z
  else if z <? 10 then "0" ++ of_int z
  else of_int z.

(** [tpl.format(key=value)] for a template with replacement fields
    [{key}] only: every occurrence of the field is replaced by [value].
    [skip] counts the characters of a field still to be dropped. *)
Fixpoint format_aux (field value : string) (skip : nat) (tpl : string) : string :=
  match tpl with
  | EmptyString => EmptyString
  | String c rest =>
      match skip with
      | S k => format_aux field value k rest
      | O =>
          if String.prefix field tpl
          then value ++ format_aux field value (String.length field - 1) rest
          else String c (format_aux field value O rest)
      end
  end.

Definition format (tpl key value : string) : string :=
  format_aux ("{" ++ key ++ "}") value O tpl.

Definition newline : string := String (ascii_of_nat 10) EmptyString.

End PyStr.

(* ------------------------------------------------------------------ *)
(** ** binary64 arithmetic used by the token estimate *)

Module Binary64.

Definition prec : Z := 53.
Definition emax : Z := 1024.

(** [float(n)] for an int: correctly rounded, ties to even. *)
Definition of_int (n : Z) : spec_float := binary_normalize prec emax n 0 false.

(** The literal [1.3]: the binary64 value nearest to 13/10,
    5854679515581645 * 2^-52. *)
Definition lit_1_3 : spec_float := S754_finite false 5854679515581645 (-52).

Definition mul (x y : spec_float) : spec_float := SFmul prec emax x y.

(** [int(x)]: truncation toward zero.  Python raises on infinities and
    NaN; those are mapped to 0 here and are not reached by the token
    estimate, whose product is finite for every word count below
    2^1023. *)
Definition to_int (x : spec_float) : Z :=
  match x with
  | S754_finite s m e =>
      let a := match e with
               | Z0 => Zpos m
               | Zpos p => Z.shiftl (Zpos m) e
               | Zneg p => Z.shiftr (Zpos m) (Zpos p)
               end in
      if s then - a else a
  | _ => 0
  end.

(** [round(x)] with one argument: the nearest integer, ties to the even
    one (same convention for infinities and NaN as [to_int]). *)
Definition round (x : spec_float) : Z :=
  match x with
  | S754_finite s m e =>
      let a := match e with
               | Z0 => Zpos m
               | Zpos p => Z.shiftl (Zpos m) e
               | Zneg p =>
                   let q := Z.shiftr (Zpos m) (Zpos p) in
                   let r := Zpos m - Z.shiftl q (Zpos p) in
                   let half := Z.shiftl 1 (Zpos p - 1) in
                   match r ?= half with
                   | Lt => q
                   | Gt => q + 1
                   | Eq => if Z.even q then q else q + 1
                   end
               end in
      if s then - a else a
  | _ => 0
  end.

End Binary64.


(* ------------------------------------------------------------------ *)
(** ** Data model *)

(** A segment dict as the transcriber builds it.  The chunker indexes
    ['text'], ['start'] and ['end'] directly; ['start_formatted'] is read
    with a default.  ['end_formatted'] and ['words'] are never read by the
    note generator and are left out. *)
Record Segment := mkSegment {
  seg_start : Q;
  seg_end : Q;
  seg_text : string;
  seg_start_formatted : option string
}.

(** A transcript dict, and also a chunk dict: [_chunk_transcript] returns
    a list that holds either the transcript itself or dicts built by
    [_create_chunk_transcript], and the generator reads both through the
    same keys.  A missing ['segments'] key is the empty list, as
    [transcript.get('segments', [])] makes it.  The keys ['language'],
    ['duration'] and ['metadata'] of a transcript are not read here. *)
Record Transcript := mkTranscript {
  text : option string;
  segments : list Segment;
  start_time : option Q;
  end_time : option Q
}.

(** The fields of a [NoteGenerator] instance (the client is the backend
    below). *)
Record NoteGenerator := mkNoteGenerator {
  model : string;
  temperature : Q;
  chunk_size : Z
}.

(* ------------------------------------------------------------------ *)
(** ** utils.format_timestamp *)

(** Python's [x // y] and [x % y] on floats, for a time [x] that is not
    negative and below 2^53 and a whole divisor [y] (3600 or 60): there
    binary64 computes both exactly ([fmod] is exact, and [x - fmod(x, y)]
    and its quotient by [y] are whole numbers below 2^53), so they are
    the floor of the quotient and the remainder of the rationals.  Outside
    that range binary64 rounds, and these definitions do not follow it: a
    quotient of 2^53 and more loses its low digits, and the remainder of a
    tiny negative time rounds up to [y] itself. *)
Definition floordiv (x y : Q) : Z := Qfloor (x / y).
Definition pymod (x y : Q) : Q := (x - y * inject_Z (floordiv x y))%Q.

(** [format_timestamp(seconds)], for [0 <= seconds < 2^53]. *)
Definition format_timestamp (seconds : Q) : string :=
  let hours := floordiv seconds (inject_Z 3600) in
  let minutes := floordiv (pymod seconds (inject_Z 3600)) (inject_Z 60) in
  let secs := Qfloor (pymod seconds (inject_Z 60)) in
  if hours >? 0
  then PyStr.format_02d hours ++ ":" ++ PyStr.format_02d minutes ++ ":" ++ PyStr.format_02d secs
  else PyStr.format_02d minutes ++ ":" ++ PyStr.format_02d secs.

(* ------------------------------------------------------------------ *)
(** ** Token estimate and chunker *)

(** [int(len(text.split()) * 1.3)] *)
Definition _estimate_tokens (t : string) : Z :=
  Binary64.to_int
    (Binary64.mul (Binary64.of_int (Z.of_nat (List.length (PyStr.split t))))
                  Binary64.lit_1_3).

(** [segments[0]['start'] if segments else 0] and
    [segments[-1]['end'] if segments else 0]. *)
Definition first_start (segs : list Segment) : Q :=
  match segs with
  | [] => 0%Q
  | s :: _ => seg_start s
  end.

Definition last_end (segs : list Segment) : Q :=
  match rev segs with
  | [] => 0%Q
  | s :: _ => seg_end s
  end.

Definition _create_chunk_transcript (segs : list Segment) : Transcript :=
  {| text := Some (PyStr.join " " (map seg_text segs));
     segments := segs;
     start_time := Some (first_start segs);
     end_time := Some (last_end segs) |}.

(** The three loop variables of [_chunk_transcript]. *)
Record ChunkerState := mkChunkerState {
  chunks : list Transcript;
  current_chunk_segments : list Segment;
  current_token_count : Z
}.

Definition chunker_init : ChunkerState :=
  {| chunks := []; current_chunk_segments := []; current_token_count := 0 |}.

(** The guard of the [if] in the loop body: Python's [and] on an int
    comparison and the truthiness of a list. *)
Definition split_guard (g : NoteGenerator) (st : ChunkerState) (segment : Segment) : bool :=
  (current_token_count st + _estimate_tokens (seg_text segment) >? chunk_size g)
  && match current_chunk_segments st with [] => false | _ => true end.

(** The statements under the [if]: save the current chunk, reset.  The
    name [current_chunk_segments] is rebound to a fresh list, so the saved
    chunk keeps the segments it was built from. *)
Definition close_chunk (st : ChunkerState) : ChunkerState :=
  {| chunks := (chunks st ++ [_create_chunk_transcript (current_chunk_segments st)])%list;
     current_chunk_segments := [];
     current_token_count := 0 |}.

(** One iteration of the loop body. *)
Definition chunker_step (g : NoteGenerator) (st : ChunkerState) (segment : Segment) : ChunkerState :=
  let segment_tokens := _estimate_tokens (seg_text segment) in
  let st1 := if split_guard g st segment then close_chunk st else st in
  {| chunks := chunks st1;
     current_chunk_segments := (current_chunk_segments st1 ++ [segment])%list;
     current_token_count := current_token_count st1 + segment_tokens |}.

(** The state after the [for] loop has consumed [segs]. *)
Definition chunker_loop (g : NoteGenerator) (segs : list Segment) : ChunkerState :=
  fold_left (chunker_step g) segs chunker_init.

Definition _chunk_transcript (g : NoteGenerator) (transcript : Transcript) : list Transcript :=
  match segments transcript with
  | [] => [transcript]
  | segs =>
      let st := chunker_loop g segs in
      match current_chunk_segments st with
      | [] => chunks st
      | cur => (chunks st ++ [_create_chunk_transcript cur])%list
      end
  end.

(* ------------------------------------------------------------------ *)
(** ** Prompt formatting *)

Definition or_default {A} (o : option A) (d : A) : A :=
  match o with Some x => x | None => d end.

Definition format_segment (seg : Segment) : string :=
  let timestamp := or_default (seg_start_formatted seg) (format_timestamp (seg_start seg)) in
  "[" ++ timestamp ++ "] " ++ seg_text seg.

Definition _format_transcript_for_prompt (transcript : Transcript) : string :=
  match segments transcript with
  | [] => or_default (text transcript) ""
  | segs => PyStr.join PyStr.newline (map format_segment segs)
  end.

(** The three prompt templates, verbatim. *)
Definition NOTE_PROMPT_TEMPLATE : string :=
"You are an expert educational note-taker. Given a lecture transcript with timestamps, create comprehensive study notes in Markdown format.

## Instructions:
1. **Title**: Derive a clear, descriptive title from the content
2. **Summary**: Write a 2-3 sentence overview of the main topic
3. **Key Concepts**: Extract the most important concepts as bullet points with brief definitions
4. **Detailed Notes**: Organize content by topic with section headers. Include timestamps [MM:SS] for key points
5. **Action Items**: Create 3-5 study questions or exercises based on the content

## Formatting Guidelines:
- Use proper Markdown headers (##, ###)
- Keep bullet points concise
- Include timestamps for important concepts so students can review the video
- Bold key terms
- Use code blocks for any technical content or formulas

## Transcript:
{transcript}

---
Now generate the study notes:".

Definition CHUNK_SUMMARY_PROMPT : string :=
"Summarize this section of a lecture transcript into key points and notes.
Include timestamps [MM:SS] for important topics mentioned.

Transcript section:
{transcript}

Provide a structured summary with:
- Main topics covered
- Key definitions or concepts
- Important details with timestamps".

Definition MERGE_NOTES_PROMPT : string :=
"You are merging notes from different sections of the same lecture into a cohesive document.

Combine these section notes into a single, well-organized study document:

{section_notes}

Create a unified document with:
1. **Title** - A descriptive title for the entire lecture
2. **Summary** - 2-3 sentence overview of all topics
3. **Table of Contents** - List major sections with timestamps
4. **Key Concepts** - Combined list of important terms/definitions
5. **Detailed Notes** - Merged, organized by topic with timestamps
6. **Action Items** - 3-5 study questions covering the full lecture

Ensure smooth transitions and remove any redundancy.".

(* ------------------------------------------------------------------ *)
(** ** The generation backend and the effects of the generator *)

(** Exceptions that reach the caller: the [RuntimeError] raised by
    [generate_notes], and whatever the ollama client raises (connection
    refused, protocol or response error), kept with its message. *)
Inductive Exn :=
| RuntimeError (msg : string)
| ClientError (msg : string).

(** [str(e)] *)
Definition exn_message (e : Exn) : string :=
  match e with
  | RuntimeError m => m
  | ClientError m => m
  end.

(** The keyword arguments of one [client.generate] call. *)
Record GenerateCall := mkGenerateCall {
  call_model : string;
  call_prompt : string;
  call_temperature : Q;
  call_num_predict : option Z;
  call_stream : bool
}.

(** What the generator does to the outside world, in program order.
    Console output other than [print_error] messages is not recorded:
    the progress lines, and the fragments of a streamed reply that
    [_generate_single] and [_generate_chunked] print as they arrive. *)
Inductive Event :=
| EvList
| EvGenerate (c : GenerateCall)
| EvPrintError (message : string).

Definition Trace := list Event.

(** One entry of the installed-model listing: the value of its ['model']
    attribute or key and of its ['name'] key, when present. *)
Record ModelEntry := mkModelEntry {
  entry_model : option string;
  entry_name : option string
}.

(** The backend, as far as the generator can observe it.  Each operation
    may depend on everything that happened before it.
    - [backend_list]: [client.list()], the entries under ['models'] or the
      message of the exception raised;
    - [backend_generate]: a blocking [client.generate], the value under
      ['response'] of the reply (if the key is there) or an exception;
    - [backend_stream]: a streaming [client.generate], the ['response']
      value of each fragment produced, and the exception that ends the
      stream early, if any. *)
Record Backend := mkBackend {
  backend_list : Trace -> string + list ModelEntry;
  backend_generate : Trace -> GenerateCall -> string + option string;
  backend_stream : Trace -> GenerateCall -> list (option string) * option string
}.

(** Computations that log events and may raise. *)
Definition M (A : Type) : Type := Trace -> (Exn + A) * Trace.

Definition ret {A} (x : A) : M A := fun tr => (inr x, tr).

Definition bind {A B} (m : M A) (k : A -> M B) : M B :=
  fun tr =>
    match m tr with
    | (inl e, tr') => (inl e, tr')
    | (inr x, tr') => k x tr'
    end.

Definition raise {A} (e : Exn) : M A := fun tr => (inl e, tr).

Definition try_except {A} (m : M A) (handler : Exn -> M A) : M A :=
  fun tr =>
    match m tr with
    | (inl e, tr') => handler e tr'
    | r => r
    end.

Definition emit (ev : Event) : M unit := fun tr => (inr tt, (tr ++ [ev])%list).

Notation "x <- m ;; k" := (bind m (fun x => k))
  (at level 61, m at next level, right associativity).
Notation "m ;;; k" := (bind m (fun _ => k))
  (at level 61, right associativity).

(** [print_error(message)]: the message goes to the console, which reads
    it as markup.  The event records the call; the call returns for every
    message in which the console finds no closing tag, and for a message
    with a closing tag that closes nothing [console.print] raises instead,
    which this definition does not follow. *)
Definition print_error (message : string) : M unit := emit (EvPrintError message).

Section Generator.

Variable client : Backend.
Variable self : NoteGenerator.

Definition client_list : M (list ModelEntry) :=
  fun tr =>
    match backend_list client tr with
    | inl msg => (inl (ClientError msg), (tr ++ [EvList])%list)
    | inr ms => (inr ms, (tr ++ [EvList])%list)
    end.

Definition client_generate (c : GenerateCall) : M (option string) :=
  fun tr =>
    match backend_generate client tr c with
    | inl msg => (inl (ClientError msg), (tr ++ [EvGenerate c])%list)
    | inr r => (inr r, (tr ++ [EvGenerate c])%list)
    end.

(** Truthiness of an optional string: [None] and [''] are falsy. *)
Definition truthy (o : option string) : bool :=
  match o with
  | Some EmptyString => false
  | Some _ => true
  | None => false
  end.

(** [getattr(m, 'model', None) or m.get('model') or m.get('name')] *)
Definition entry_display_name (m : ModelEntry) : option string :=
  if truthy (entry_model m) then entry_model m else entry_name m.

(** The loop that fills [model_names]. *)
Fixpoint collect_model_names (models : list ModelEntry) : list string :=
  match models with
  | [] => []
  | m :: rest =>
      let name := entry_display_name m in
      if truthy name
      then or_default name "" :: collect_model_names rest
      else collect_model_names rest
  end.

(** [x in names] *)
Definition str_in (x : string) (names : list string) : bool :=
  existsb (String.eqb x) names.

(** The decision of [check_model_available] once [model_names] is
    known. *)
Definition model_matches (model_names : list string) : bool :=
  if str_in (model self) model_names then true
  else
    let base_name := PyStr.split_first ":" (model self) in
    existsb (fun name => PyStr.startswith name base_name) model_names.

Definition check_model_available : M bool :=
  try_except
    (models <- client_list ;;
     ret (model_matches (collect_model_names models)))
    (fun e =>
       print_error ("Could not connect to Ollama: " ++ exn_message e) ;;;
       ret false).

(** [response.get('response', '')] *)
Definition response_text (r : option string) : string := or_default r "".

(** [_stream_generate], driven to exhaustion by its caller, which adds
    up the fragments. *)
Definition _stream_generate (prompt : string) : M string :=
  let c := {| call_model := model self; call_prompt := prompt;
              call_temperature := temperature self;
              call_num_predict := Some 4096; call_stream := true |} in
  fun tr =>
    let '(fragments, failure) := backend_stream client tr c in
    let tr' := (tr ++ [EvGenerate c])%list in
    match failure with
    | Some msg =>
        (print_error ("Generation error: " ++ msg) ;;; raise (ClientError msg)) tr'
    | None => (inr (String.concat "" (map response_text fragments)), tr')
    end.

(** The call made when [stream_output] is false. *)
Definition blocking_call (prompt : string) : GenerateCall :=
  {| call_model := model self; call_prompt := prompt;
     call_temperature := temperature self;
     call_num_predict := None; call_stream := false |}.

(** The tail shared by [_generate_single] and [_generate_chunked]: the
    generation call and the text returned.  On the streaming path the
    caller also prints every fragment; that output is not recorded, and
    the text returned is that of a run in which the console accepts each
    fragment. *)
Definition generate_final (prompt : string) (stream_output : bool) : M string :=
  if stream_output then _stream_generate prompt
  else
    response <- client_generate (blocking_call prompt) ;;
    ret (response_text response).

Definition _generate_single (transcript : Transcript) (stream_output : bool) : M string :=
  let formatted_transcript := _format_transcript_for_prompt transcript in
  let prompt := PyStr.format NOTE_PROMPT_TEMPLATE "transcript" formatted_transcript in
  generate_final prompt stream_output.

(** The header put in front of a chunk's summary. *)
Definition section_label (i : nat) (chunk : Transcript) : string :=
  let start_time := format_timestamp (or_default (start_time chunk) 0%Q) in
  let end_time := format_timestamp (or_default (end_time chunk) 0%Q) in
  "## Section " ++ PyStr.of_int (Z.of_nat i + 1) ++ " [" ++ start_time ++ " - " ++ end_time ++ "]"
    ++ PyStr.newline ++ PyStr.newline.

Definition chunk_prompt (chunk : Transcript) : string :=
  PyStr.format CHUNK_SUMMARY_PROMPT "transcript" (_format_transcript_for_prompt chunk).

(** [for i, chunk in enumerate(chunks)]: [i] is the index of the head
    of [remaining]. *)
Fixpoint chunk_pass (i : nat) (remaining : list Transcript) (section_notes : list string)
  : M (list string) :=
  match remaining with
  | [] => ret section_notes
  | chunk :: rest =>
      response <- client_generate (blocking_call (chunk_prompt chunk)) ;;
      chunk_pass (S i) rest
        (section_notes ++ [(section_label i chunk ++ response_text response)%string])%list
  end.

Definition section_separator : string :=
  PyStr.newline ++ PyStr.newline ++ "---" ++ PyStr.newline ++ PyStr.newline.

Definition merge_prompt (section_notes : list string) : string :=
  PyStr.format MERGE_NOTES_PROMPT "section_notes" (PyStr.join section_separator section_notes).

Definition _generate_chunked (transcript : Transcript) (stream_output : bool) : M string :=
  let chunks := _chunk_transcript self transcript in
  section_notes <- chunk_pass 0 chunks [] ;;
  generate_final (merge_prompt section_notes) stream_output.

Definition generate_notes (transcript : Transcript) (stream_output : bool) : M string :=
  available <- check_model_available ;;
  if negb available then
    raise (RuntimeError ("Model '" ++ model self ++ "' not found. Run: ollama pull " ++ model self))
  else
    let total_tokens := _estimate_tokens (or_default (text transcript) "") in
    if total_tokens >? chunk_size self
    then _generate_chunked transcript stream_output
    else _generate_single transcript stream_output.

End Generator.

(* ------------------------------------------------------------------ *)
(** ** hashlib.md5 (RFC 1321) *)

Module MD5.

(** 32-bit words are integers in [0, 2^32); every operation reduces its
    result. *)
Definition w32 (x : Z) : Z := x mod 4294967296.
Definition add32 (x y : Z) : Z := w32 (x + y).
Definition not32 (x : Z) : Z := Z.lxor x 4294967295.
Definition rotl32 (x s : Z) : Z :=
  w32 (Z.lor (Z.shiftl x s) (Z.shiftr x (32 - s))).

(** [K[i] = floor(2^32 * abs(sin(i + 1)))] *)
Definition K : list Z :=
  [
    0xd76aa478; 0xe8c7b756; 0x242070db; 0xc1bdceee;
    0xf57c0faf; 0x4787c62a; 0xa8304613; 0xfd469501;
    0x698098d8; 0x8b44f7af; 0xffff5bb1; 0x895cd7be;
    0x6b901122; 0xfd987193; 0xa679438e; 0x49b40821;
    0xf61e2562; 0xc040b340; 0x265e5a51; 0xe9b6c7aa;
    0xd62f105d; 0x02441453; 0xd8a1e681; 0xe7d3fbc8;
    0x21e1cde6; 0xc33707d6; 0xf4d50d87; 0x455a14ed;
    0xa9e3e905; 0xfcefa3f8; 0x676f02d9; 0x8d2a4c8a;
    0xfffa3942; 0x8771f681; 0x6d9d6122; 0xfde5380c;
    0xa4beea44; 0x4bdecfa9; 0xf6bb4b60; 0xbebfbc70;
    0x289b7ec6; 0xeaa127fa; 0xd4ef3085; 0x04881d05;
    0xd9d4d039; 0xe6db99e5; 0x1fa27cf8; 0xc4ac5665;
    0xf4292244; 0x432aff97; 0xab9423a7; 0xfc93a039;
    0x655b59c3; 0x8f0ccc92; 0xffeff47d; 0x85845dd1;
    0x6fa87e4f; 0xfe2ce6e0; 0xa3014314; 0x4e0811a1;
    0xf7537e82; 0xbd3af235; 0x2ad7d2bb; 0xeb86d391 ].

(** Per-round left-rotation amounts. *)
Definition S : list Z :=
  [ 7; 12; 17; 22; 7; 12; 17; 22; 7; 12; 17; 22; 7; 12; 17; 22;
    5; 9; 14; 20; 5; 9; 14; 20; 5; 9; 14; 20; 5; 9; 14; 20;
    4; 11; 16; 23; 4; 11; 16; 23; 4; 11; 16; 23; 4; 11; 16; 23;
    6; 10; 15; 21; 6; 10; 15; 21; 6; 10; 15; 21; 6; 10; 15; 21 ].

Record state := mkState { sa : Z; sb : Z; sc : Z; sd : Z }.

Definition init : state :=
  {| sa := 0x67452301; sb := 0xefcdab89; sc := 0x98badcfe; sd := 0x10325476 |}.

(** Operation [i] (0 to 63) of the compression function on the block
    words [m]. *)
Definition step (m : list Z) (st : state) (i : nat) : state :=
  let '(mkState a b c d) := st in
  let zi := Z.of_nat i in
  let '(f, g) :=
    if zi <? 16 then (Z.lor (Z.land b c) (Z.land (not32 b) d), zi)
    else if zi <? 32 then (Z.lor (Z.land d b) (Z.land (not32 d) c), (5 * zi + 1) mod 16)
    else if zi <? 48 then (Z.lxor (Z.lxor b c) d, (3 * zi + 5) mod 16)
    else (Z.lxor c (Z.lor b (not32 d)), (7 * zi) mod 16) in
  let f' := add32 (add32 (add32 f a) (nth i K 0)) (nth (Z.to_nat g) m 0) in
  {| sa := d; sd := c; sc := b; sb := add32 b (rotl32 f' (nth i S 0)) |}.

(** Four bytes, least significant first, to a word and back. *)
Definition word_of_bytes (bs : list Z) : Z :=
  nth 0 bs 0 + 256 * nth 1 bs 0 + 65536 * nth 2 bs 0 + 16777216 * nth 3 bs 0.

Definition bytes_of_word (x : Z) : list Z :=
  [ x mod 256; (x / 256) mod 256; (x / 65536) mod 256; (x / 16777216) mod 256 ].

Fixpoint words_of_block (n : nat) (block : list Z) : list Z :=
  match n with
  | O => []
  | Datatypes.S k => word_of_bytes (firstn 4 block) :: words_of_block k (skipn 4 block)
  end.

Definition compress (st : state) (block : list Z) : state :=
  let m := words_of_block 16 block in
  let r := fold_left (step m) (seq 0 64) st in
  {| sa := add32 (sa st) (sa r); sb := add32 (sb st) (sb r);
     sc := add32 (sc st) (sc r); sd := add32 (sd st) (sd r) |}.

(** Padding: a 1 bit, zeros up to 56 modulo 64 bytes, then the bit
    length on 64 bits, least significant byte first. *)
Definition length_bytes (bits : Z) : list Z :=
  map (fun k => (bits / 2 ^ (8 * Z.of_nat k)) mod 256) (seq 0 8).

Definition pad (msg : list Z) : list Z :=
  let len := Z.of_nat (List.length msg) in
  (msg ++ [128] ++ repeat 0 (Z.to_nat ((55 - len) mod 64))
       ++ length_bytes ((8 * len) mod 2 ^ 64))%list.

Fixpoint process (nblocks : nat) (st : state) (data : list Z) : state :=
  match nblocks with
  | O => st
  | Datatypes.S k => process k (compress st (firstn 64 data)) (skipn 64 data)
  end.

Definition digest (msg : list Z) : list Z :=
  let data := pad msg in
  let st := process (List.length data / 64) init data in
  (bytes_of_word (sa st) ++ bytes_of_word (sb st)
     ++ bytes_of_word (sc st) ++ bytes_of_word (sd st))%list.

Definition hex_digit (n : Z) : ascii :=
  nth (Z.to_nat n) (list_ascii_of_string "0123456789abcdef") "0"%char.

Definition hex_byte (b : Z) : string :=
  String (hex_digit (b / 16)) (String (hex_digit (b mod 16)) EmptyString).

(** [hashlib.md5(data).hexdigest()] *)
Definition hexdigest (msg : list Z) : string :=
  String.concat "" (map hex_byte (digest msg)).

End MD5.

(* ------------------------------------------------------------------ *)
(** ** utils.get_file_hash *)

Module PyBytes.

Definition squote : ascii := "'"%char.
Definition dquote : ascii := ascii_of_nat 34.
Definition backslash : ascii := "\"%char.

Definition code (b : Byte.byte) : Z := Z.of_N (Byte.to_N b).

(** [repr] of one byte inside a literal delimited by [quote]. *)
Definition repr_byte (quote : ascii) (b : Byte.byte) : string :=
  let c := ascii_of_byte b in
  let n := code b in
  if Ascii.eqb c quote || Ascii.eqb c backslash then String backslash (String c EmptyString)
  else if n =? 9 then "\t"
  else if n =? 10 then "\n"
  else if n =? 13 then "\r"
  else if (n <? 32) || (127 <=? n) then "\x" ++ MD5.hex_byte n
  else String c EmptyString.

(** The delimiter [repr] picks: a double quote when the bytes hold a
    single quote and no double quote, a single quote otherwise. *)
Definition pick_quote (bs : list Byte.byte) : ascii :=
  if existsb (fun b => Ascii.eqb (ascii_of_byte b) squote) bs
     && negb (existsb (fun b => Ascii.eqb (ascii_of_byte b) dquote) bs)
  then dquote else squote.

(** [repr(bs)], which is what an f-string field makes of a bytes
    object. *)
Definition repr (bs : list Byte.byte) : string :=
  let q := pick_quote bs in
  "b" ++ String q (String.concat "" (map (repr_byte q) bs)) ++ String q EmptyString.

(** [s.encode()]: UTF-8 of the code points below 256. *)
Definition encode_char (c : ascii) : list Z :=
  let n := Z.of_nat (nat_of_ascii c) in
  if n <? 128 then [n] else [192 + n / 64; 128 + n mod 64].

Definition encode (s : string) : list Z :=
  flat_map encode_char (list_ascii_of_string s).

(** [bs[:n]] *)
Fixpoint take {A} (n : N) (l : list A) : list A :=
  match l with
  | [] => []
  | x :: rest => if (n =? 0)%N then [] else x :: take (N.pred n) rest
  end.

End PyBytes.

Section Fingerprint.

(** Modification times are floats.  Their decimal rendering by an
    f-string field is a parameter: [float_str] is Python's [repr] on
    floats. *)
Variable PyFloat : Type.
Variable float_str : PyFloat -> string.

(** What [path.stat()] and the [read] see of the file. *)
Record File := mkFile {
  file_bytes : list Byte.byte;
  st_size : Z;
  st_mtime : PyFloat
}.

Definition MiB : N := 1048576.

(** [f.read(1024 * 1024)] *)
Definition first_chunk (f : File) : list Byte.byte := PyBytes.take MiB (file_bytes f).

(** [f"{first_chunk}{stat.st_size}{stat.st_mtime}"] *)
Definition hash_input (chunk : list Byte.byte) (size : Z) (mtime : PyFloat) : string :=
  PyBytes.repr chunk ++ PyStr.of_int size ++ float_str mtime.

Definition fingerprint (chunk : list Byte.byte) (size : Z) (mtime : PyFloat) : string :=
  String.substring 0 12 (MD5.hexdigest (PyBytes.encode (hash_input chunk size mtime))).

Definition get_file_hash (f : File) : string :=
  fingerprint (first_chunk f) (st_size f) (st_mtime f).

End Fingerprint.

Arguments file_bytes {PyFloat} _.
Arguments st_size {PyFloat} _.
Arguments st_mtime {PyFloat} _.
Arguments mkFile {PyFloat} _ _ _.
Arguments first_chunk {PyFloat} _.
Arguments hash_input {PyFloat} _ _ _ _.
Arguments fingerprint {PyFloat} _ _ _ _.
Arguments get_file_hash {PyFloat} _ _.

(** Python's rendering of a float whose value is the whole number [n],
    for [n] below 10^16: the digits of [n] followed by [.0]. *)
Definition whole_seconds_str (n : N) : string :=
  PyStr.of_int (Z.of_N n) ++ ".0".

(* ------------------------------------------------------------------ *)
(** ** Vocabulary of the statements *)

(** The segments of a list of chunks, in chunk order. *)
Definition all_segments (cs : list Transcript) : list Segment :=
  flat_map segments cs.

(** The sum of the token estimates of some segments. *)
Definition tokens_of (segs : list Segment) : Z :=
  fold_right (fun s acc => _estimate_tokens (seg_text s) + acc) 0 segs.

(** What holds of every chunk the loop has closed. *)
Definition well_formed_chunk (c : Transcript) : Prop :=
  segments c <> [] /\ c = _create_chunk_transcript (segments c).

(** The [client.generate] calls of a trace, in program order. *)
Fixpoint generate_calls (tr : Trace) : list GenerateCall :=
  match tr with
  | [] => []
  | EvGenerate c :: rest => c :: generate_calls rest
  | _ :: rest => generate_calls rest
  end.

(** The section notes of a chunked pass whose chunk-summary calls got the
    replies [responses]: the note of chunk [i] (counted from [i0]) is its
    label followed by the reply's text. *)
Fixpoint label_sections (i0 : nat) (cs : list Transcript) (responses : list (option string))
  : list string :=
  match cs, responses with
  | c :: cs', r :: rs' =>
      (section_label i0 c ++ response_text r) :: label_sections (S i0) cs' rs'
  | _, _ => []
  end.

(** The text of a template before and after its replacement field. *)
Definition template_head (tpl key : string) : string :=
  match String.index 0 ("{" ++ key ++ "}") tpl with
  | Some n => String.substring 0 n tpl
  | None => tpl
  end.

Definition template_tail (tpl key : string) : string :=
  match String.index 0 ("{" ++ key ++ "}") tpl with
  | Some n =>
      let k := (n + String.length ("{" ++ key ++ "}"))%nat in
      String.substring k (String.length tpl - k) tpl
  | None => EmptyString
  end.

(** The identifier with its variant or tag suffix stripped. *)
Definition base_name (identifier : string) : string :=
  PyStr.split_first ":" identifier.

(** Model-name matching in the spec's words (section 8, property 6, and
    the claim drawn from it): the requested identifier is installed under
    exactly that name, or some installed model has the same base name. *)
Definition spec_model_available (requested : string) (installed : list string) : Prop :=
  In requested installed
  \/ exists name, In name installed /\ base_name name = base_name requested.

(** The message of the [RuntimeError] of [generate_notes]. *)
Definition model_not_found_message (g : NoteGenerator) : string :=
  "Model '" ++ model g ++ "' not found. Run: ollama pull " ++ model g.

(** The number of whitespace-separated words of a text. *)
Definition word_count (t : string) : Z := Z.of_nat (List.length (PyStr.split t)).

(** The token estimate in the spec's words (section 4.2):
    [round(word_count(text) * 1.3)], with Python's [round]. *)
Definition spec_estimated_tokens (t : string) : Z :=
  Binary64.round (Binary64.mul (Binary64.of_int (word_count t)) Binary64.lit_1_3).

(** Lower-case hexadecimal digits. *)
Definition is_hex_char (c : ascii) : Prop :=
  In c (list_ascii_of_string "0123456789abcdef").

(** Readers that undo [PyBytes.repr_byte] and [PyBytes.encode_char] at the
    head of a string or byte list; they serve to show that both encodings
    can be read back in one way only. *)
Definition hex_value (c : ascii) : Z :=
  let n := Z.of_nat (nat_of_ascii c) in
  if n <? 58 then n - 48 else n - 87.

Definition ascii_of_code (n : Z) : ascii := ascii_of_nat (Z.to_nat n).

Definition read_repr_byte (s : string) : option (Byte.byte * string) :=
  match s with
  | EmptyString => None
  | String c rest =>
      if Ascii.eqb c PyBytes.backslash then
        match rest with
        | EmptyString => None
        | String d rest' =>
            if Ascii.eqb d "t" then Some (byte_of_ascii (ascii_of_code 9), rest')
            else if Ascii.eqb d "n" then Some (byte_of_ascii (ascii_of_code 10), rest')
            else if Ascii.eqb d "r" then Some (byte_of_ascii (ascii_of_code 13), rest')
            else if Ascii.eqb d "x" then
              match rest' with
              | String h (String l rest'') =>
                  Some (byte_of_ascii (ascii_of_code (16 * hex_value h + hex_value l)), rest'')
              | _ => None
              end
            else Some (byte_of_ascii d, rest')
        end
      else Some (byte_of_ascii c, rest)
  end.

Definition read_utf8_char (bs : list Z) : option (ascii * list Z) :=
  match bs with
  | [] => None
  | x :: rest =>
      if x <? 128 then Some (ascii_of_code x, rest)
      else
        match rest with
        | [] => None
        | y :: rest' => Some (ascii_of_code (64 * (x - 192) + (y - 128)), rest')
        end
  end.

(* ------------------------------------------------------------------ *)
(** ** Sample data *)

(** A ten-segment transcript in the shape the transcriber produces: each
    segment lasts ten seconds and holds four words (5 estimated tokens).
    With a budget of 30 tokens the running estimate reaches the budget
    exactly at the sixth segment and exceeds it at the seventh. *)
Definition sample_segment (i : nat) : Segment :=
  let start := inject_Z (10 * Z.of_nat i) in
  {| seg_start := start;
     seg_end := inject_Z (10 * Z.of_nat i + 10);
     seg_text := "the lecture goes on";
     seg_start_formatted := Some (format_timestamp start) |}.

Definition sample_segments : list Segment := map sample_segment (seq 0 10).

Definition sample_transcript : Transcript :=
  {| text := Some (PyStr.join " " (map seg_text sample_segments));
     segments := sample_segments;
     start_time := None;
     end_time := None |}.

Definition sample_generator : NoteGenerator :=
  {| model := "llama3.2:3b"; temperature := 3 # 10; chunk_size := 30 |}.

(** The sample generator with a budget equal to the estimate of the sample
    transcript's text (40 words, 52 estimated tokens). *)
Definition budget_52 : NoteGenerator :=
  {| model := "llama3.2:3b"; temperature := 3 # 10; chunk_size := 52 |}.

Definition sample_chunk_1 : Transcript :=
  _create_chunk_transcript (map sample_segment (seq 0 6)).

Definition sample_chunk_2 : Transcript :=
  _create_chunk_transcript (map sample_segment (seq 6 4)).

(** A backend for the examples: one installed model, blocking replies
    that tell how many events came before the call, and a stream of three
    fragments, the last without a ['response'] key. *)
Definition sample_backend : Backend :=
  {| backend_list := fun _ => inr [ {| entry_model := Some "llama3.2:3b"; entry_name := None |} ];
     backend_generate := fun tr _ =>
       inr (Some ("summary after " ++ PyStr.of_int (Z.of_nat (List.length tr)) ++ " events"));
     backend_stream := fun _ _ => ([Some "final "; Some "notes"; None], None) |}.

(** A backend that cannot be reached: every operation raises. *)
Definition unreachable_backend : Backend :=
  {| backend_list := fun _ => inl "[Errno 111] Connection refused";
     backend_generate := fun _ _ => inl "[Errno 111] Connection refused";
     backend_stream := fun _ _ => ([], Some "[Errno 111] Connection refused") |}.

(** A backend that runs but only has another model installed. *)
Definition mistral_only_backend : Backend :=
  {| backend_list := fun _ => inr [ {| entry_model := Some "mistral:7b"; entry_name := None |} ];
     backend_generate := fun _ _ => inr (Some "ok");
     backend_stream := fun _ _ => ([Some "ok"], None) |}.

(** The file of the examples: seven bytes, last modified at a whole
    second. *)
Definition lecture_bytes : list Byte.byte :=
  map byte_of_ascii (list_ascii_of_string "lecture").

Definition lecture_file (mtime : N) : File N :=
  {| file_bytes := lecture_bytes; st_size := 7; st_mtime := mtime |}.

(* ------------------------------------------------------------------ *)
(** ** Further vocabulary: chunk sizes and neighbours *)

(** The estimate of the first segment of a chunk (0 for a chunk without
    segments). *)
Definition first_tokens (c : Transcript) : Z :=
  match segments c with
  | [] => 0
  | s :: _ => _estimate_tokens (seg_text s)
  end.

(** [R] holds between every element of a list and its successor. *)
Fixpoint adjacent {A : Type} (R : A -> A -> Prop) (l : list A) : Prop :=
  match l with
  | a :: (b :: _) as rest => R a b /\ adjacent R rest
  | _ => True
  end.

(** A chunk is within the budget, or it is a single segment. *)
Definition bounded_chunk (g : NoteGenerator) (c : Transcript) : Prop :=
  tokens_of (segments c) <= chunk_size g \/ exists s, segments c = [s].

(** The chunk [c1] was closed because the first segment of [c2] did not
    fit into it. *)
Definition closed_by_overflow (g : NoteGenerator) (c1 c2 : Transcript) : Prop :=
  tokens_of (segments c1) + first_tokens c2 > chunk_size g.

(** What the loop keeps true of its state, for the size of the chunks:
    every closed chunk is bounded, the running count is the estimate of
    the current chunk, and the current chunk is bounded too. *)
Definition chunker_bounded (g : NoteGenerator) (st : ChunkerState) : Prop :=
  Forall (bounded_chunk g) (chunks st)
  /\ current_token_count st = tokens_of (current_chunk_segments st)
  /\ (tokens_of (current_chunk_segments st) <= chunk_size g
      \/ (List.length (current_chunk_segments st) <= 1)%nat).

(** What the loop keeps true of its state, for the places where it cuts:
    before the first segment nothing is closed; afterwards every chunk,
    the current one included, follows a chunk that its first segment
    overflowed. *)
Definition chunker_greedy (g : NoteGenerator) (st : ChunkerState) : Prop :=
  current_token_count st = tokens_of (current_chunk_segments st)
  /\ match current_chunk_segments st with
     | [] => chunks st = []
     | cur => adjacent (closed_by_overflow g)
                (chunks st ++ [_create_chunk_transcript cur])
     end.

(** The chunk that holds one segment. *)
Definition single_chunk (s : Segment) : Transcript := _create_chunk_transcript [s].

(** The sample generator with a budget below the estimate of every sample
    segment (5 tokens each). *)
Definition budget_4 : NoteGenerator :=
  {| model := "llama3.2:3b"; temperature := 3 # 10; chunk_size := 4 |}.

(* ------------------------------------------------------------------ *)
(** ** Further vocabulary: texts made of segments *)

(** The transcript's text is the space-joined texts of its segments, as
    the transcriber and [_create_chunk_transcript] build it. *)
Definition text_is_joined_segments (t : Transcript) : Prop :=
  text t = Some (PyStr.join " " (map seg_text (segments t))).

(** [transcript.get('text', '')] *)
Definition text_or_empty (t : Transcript) : string := or_default (text t) "".

(** The sample transcript without its ['text'] key. *)
Definition textless_transcript : Transcript :=
  {| text := None; segments := sample_segments; start_time := None; end_time := None |}.

(** A backend whose blocking calls succeed only as long as nothing has
    happened before them. *)
Definition flaky_backend : Backend :=
  {| backend_list := fun _ => inr [ {| entry_model := Some "llama3.2:3b"; entry_name := None |} ];
     backend_generate := fun tr _ =>
       match tr with
       | [] => inr (Some "first summary")
       | _ => inl "timed out"
       end;
     backend_stream := fun _ _ => ([], Some "timed out") |}.

(** A backend that has the model installed and then times out on every
    generation call. *)
Definition timing_out_backend : Backend :=
  {| backend_list := fun _ => inr [ {| entry_model := Some "llama3.2:3b"; entry_name := None |} ];
     backend_generate := fun _ _ => inl "timed out";
     backend_stream := fun _ _ => ([], Some "timed out") |}.

(** The calls of the chunked pass for a list of chunks. *)
Definition summary_calls_of (self : NoteGenerator) (cs : list Transcript) : list GenerateCall :=
  map (fun c => blocking_call self (chunk_prompt c)) cs.

(* ------------------------------------------------------------------ *)
(** ** transcriber.py: collecting the recognised segments *)

(** [s.lstrip()], [s.rstrip()] and [s.strip()] without argument: the
    whitespace at the start, at the end, at both ends is removed. *)
Fixpoint lstrip (s : string) : string :=
  match s with
  | EmptyString => EmptyString
  | String c rest => if PyStr.is_space c then lstrip rest else s
  end.

Fixpoint rstrip (s : string) : string :=
  match s with
  | EmptyString => EmptyString
  | String c rest =>
      match rstrip rest with
      | EmptyString => if PyStr.is_space c then EmptyString else String c EmptyString
      | rest' => String c rest'
      end
  end.

Definition strip (s : string) : string := rstrip (lstrip s).

(** A word of a recognised segment; the transcriber copies its four
    values into a dict. *)
Record Word := mkWord {
  word : string;
  word_start : Q;
  word_end : Q;
  probability : Q
}.

(** A segment as the recognition engine yields it: the attributes the
    transcriber reads. *)
Record WhisperSegment := mkWhisperSegment {
  ws_start : Q;
  ws_end : Q;
  ws_text : string;
  ws_words : option (list Word)
}.

(** The dict the transcriber builds for a segment; ['words'] is an
    optional key. *)
Record SegmentDict := mkSegmentDict {
  sd_start : Q;
  sd_end : Q;
  sd_text : string;
  sd_start_formatted : string;
  sd_end_formatted : string;
  sd_words : option (list Word)
}.

(** Truthiness of [segment.words]: a non-empty list. *)
Definition has_words (ws : option (list Word)) : bool :=
  match ws with
  | Some (_ :: _) => true
  | _ => false
  end.

(** The body of the loop up to the two [append]s. *)
Definition make_segment_dict (word_timestamps : bool) (segment : WhisperSegment) : SegmentDict :=
  {| sd_start := ws_start segment;
     sd_end := ws_end segment;
     sd_text := strip (ws_text segment);
     sd_start_formatted := format_timestamp (ws_start segment);
     sd_end_formatted := format_timestamp (ws_end segment);
     sd_words := if word_timestamps && has_words (ws_words segment)
                 then ws_words segment else None |}.

(** The loop over the segment stream, with its two accumulators. *)
Fixpoint collect_segments (word_timestamps : bool) (segments_gen : list WhisperSegment)
         (segs : list SegmentDict) (full_text_parts : list string)
  : list SegmentDict * list string :=
  match segments_gen with
  | [] => (segs, full_text_parts)
  | segment :: rest =>
      collect_segments word_timestamps rest
        (segs ++ [make_segment_dict word_timestamps segment])%list
        (full_text_parts ++ [strip (ws_text segment)])%list
  end.

(** The ['text'] and ['segments'] entries of the result dict of
    [transcribe]; the other entries come from the engine's info and from
    the clock. *)
Definition transcription (word_timestamps : bool) (segments_gen : list WhisperSegment)
  : string * list SegmentDict :=
  let '(segs, full_text_parts) := collect_segments word_timestamps segments_gen [] [] in
  (PyStr.join " " full_text_parts, segs).

(** A segment dict as the note generator reads it. *)
Definition as_segment (d : SegmentDict) : Segment :=
  {| seg_start := sd_start d;
     seg_end := sd_end d;
     seg_text := sd_text d;
     seg_start_formatted := Some (sd_start_formatted d) |}.

(** The result dict of [transcribe] as the note generator reads it. *)
Definition as_transcript (result : string * list SegmentDict) : Transcript :=
  {| text := Some (fst result);
     segments := map as_segment (snd result);
     start_time := None;
     end_time := None |}.

(** A string made of whitespace only. *)
Fixpoint blank (s : string) : bool :=
  match s with
  | EmptyString => true
  | String c rest => PyStr.is_space c && blank rest
  end.

(** A string that neither starts nor ends with whitespace. *)
Definition stripped (s : string) : Prop :=
  (forall c rest, s = String c rest -> PyStr.is_space c = false)
  /\ (forall init c, s = init ++ String c EmptyString -> PyStr.is_space c = false).

(** A segment without its stored start stamp, as an entry that lacks the
    ['start_formatted'] key. *)
Definition without_stamp (s : Segment) : Segment :=
  {| seg_start := seg_start s; seg_end := seg_end s; seg_text := seg_text s;
     seg_start_formatted := None |}.

(** Two recognised segments for the examples. *)
Definition sample_stream : list WhisperSegment :=
  [ {| ws_start := 0; ws_end := 5 # 2; ws_text := " Welcome to the lecture.";
       ws_words := Some [ {| word := " Welcome"; word_start := 0; word_end := 1 # 2;
                             probability := 9 # 10 |} ] |};
    {| ws_start := 5 # 2; ws_end := 6; ws_text := " Today we talk about proofs. ";
       ws_words := None |} ].

(* ------------------------------------------------------------------ *)
(** ** Further vocabulary: console markup *)


(* ------------------------------------------------------------------ *)
(** * Properties of the chunker *)

Section ChunkerFacts.

Variable g : NoteGenerator.

Lemma chunker_loop_snoc (pre : list Segment) (segment : Segment) :
  chunker_loop g (pre ++ [segment]) = chunker_step g (chunker_loop g pre) segment.
Proof. unfold chunker_loop. now rewrite fold_left_app. Qed.

Lemma all_segments_snoc (cs : list Transcript) (c : Transcript) :
  all_segments (cs ++ [c]) = (all_segments cs ++ segments c)%list.
Proof.
  unfold all_segments. rewrite flat_map_app. simpl. now rewrite app_nil_r.
Qed.

(** One iteration moves the segment from the input to the state and
    loses nothing. *)
Lemma chunker_step_segments (st : ChunkerState) (segment : Segment) :
  let st' := chunker_step g st segment in
  (all_segments (chunks st') ++ current_chunk_segments st')%list
  = ((all_segments (chunks st) ++ current_chunk_segments st) ++ [segment])%list.
Proof.
  unfold chunker_step. destruct (split_guard g st segment); simpl.
  - now rewrite all_segments_snoc.
  - now rewrite app_assoc.
Qed.

Lemma chunker_fold_segments (segs : list Segment) (st : ChunkerState) :
  let st' := fold_left (chunker_step g) segs st in
  (all_segments (chunks st') ++ current_chunk_segments st')%list
  = ((all_segments (chunks st) ++ current_chunk_segments st) ++ segs)%list.
Proof.
  revert st. induction segs as [|s segs IH]; intros st; simpl.
  - now rewrite app_nil_r.
  - rewrite IH, chunker_step_segments. now rewrite <- app_assoc.
Qed.

(** After any iteration the current chunk is not empty. *)
Lemma chunker_step_current (st : ChunkerState) (segment : Segment) :
  current_chunk_segments (chunker_step g st segment) <> [].
Proof.
  unfold chunker_step. simpl. intros H. now apply app_eq_nil in H as [_ H].
Qed.

Lemma chunker_loop_current (segs : list Segment) :
  segs <> [] -> current_chunk_segments (chunker_loop g segs) <> [].
Proof.
  destruct segs as [|s segs] using rev_ind; [congruence|].
  intros _. rewrite chunker_loop_snoc. apply chunker_step_current.
Qed.

Lemma chunker_step_chunks (st : ChunkerState) (segment : Segment) :
  Forall well_formed_chunk (chunks st) ->
  Forall well_formed_chunk (chunks (chunker_step g st segment)).
Proof.
  intros H. unfold chunker_step, split_guard.
  destruct (current_chunk_segments st) as [|s0 cur] eqn:E.
  - rewrite andb_false_r. exact H.
  - destruct (_ >? _); simpl; [|exact H].
    apply Forall_app. split; [exact H|].
    rewrite E. constructor; [|constructor].
    split; simpl; [discriminate | reflexivity].
Qed.

Lemma chunker_fold_chunks (segs : list Segment) (st : ChunkerState) :
  Forall well_formed_chunk (chunks st) ->
  Forall well_formed_chunk (chunks (fold_left (chunker_step g) segs st)).
Proof.
  revert st. induction segs as [|s segs IH]; intros st H; simpl; [exact H|].
  apply IH, chunker_step_chunks, H.
Qed.

(** The running count is the estimate of the current chunk. *)
Lemma tokens_of_snoc (segs : list Segment) (s : Segment) :
  tokens_of (segs ++ [s]) = tokens_of segs + _estimate_tokens (seg_text s).
Proof.
  unfold tokens_of. induction segs as [|x segs IH]; simpl; [lia|].
  rewrite IH. lia.
Qed.

Lemma chunker_step_count (st : ChunkerState) (segment : Segment) :
  current_token_count st = tokens_of (current_chunk_segments st) ->
  current_token_count (chunker_step g st segment)
  = tokens_of (current_chunk_segments (chunker_step g st segment)).
Proof.
  intros H. unfold chunker_step.
  destruct (split_guard g st segment); simpl.
  - lia.
  - now rewrite tokens_of_snoc, H.
Qed.

Lemma chunker_loop_count (segs : list Segment) :
  current_token_count (chunker_loop g segs)
  = tokens_of (current_chunk_segments (chunker_loop g segs)).
Proof.
  induction segs as [|s segs IH] using rev_ind; [reflexivity|].
  rewrite chunker_loop_snoc. now apply chunker_step_count.
Qed.

(** The chunker on a transcript that has segments. *)
Lemma chunk_transcript_nonempty (t : Transcript) :
  segments t <> [] ->
  _chunk_transcript g t
  = (chunks (chunker_loop g (segments t))
     ++ [_create_chunk_transcript (current_chunk_segments (chunker_loop g (segments t)))])%list.
Proof.
  intros H. unfold _chunk_transcript.
  destruct (segments t) as [|s segs] eqn:E; [congruence|].
  pose proof (chunker_loop_current (s :: segs)) as Hc.
  destruct (current_chunk_segments (chunker_loop g (s :: segs))); [|reflexivity].
  exfalso. apply Hc; congruence.
Qed.

Lemma chunk_transcript_well_formed (t : Transcript) :
  segments t <> [] -> Forall well_formed_chunk (_chunk_transcript g t).
Proof.
  intros H. rewrite (chunk_transcript_nonempty t H).
  apply Forall_app. split.
  - apply chunker_fold_chunks. constructor.
  - constructor; [|constructor]. split; simpl; [|reflexivity].
    now apply chunker_loop_current.
Qed.

End ChunkerFacts.

(** C1. Chunk coverage and order: concatenating the segment lists of the
    chunks returned by [_chunk_transcript], in chunk order, gives back the
    transcript's segment list, whatever the transcript and the budget. *)
Theorem chunk_coverage_and_order (g : NoteGenerator) (t : Transcript) :
  all_segments (_chunk_transcript g t) = segments t.
Proof.
  destruct (segments t) as [|s segs] eqn:E.
  - unfold _chunk_transcript. rewrite E. simpl. now rewrite E.
  - rewrite chunk_transcript_nonempty by congruence.
    rewrite all_segments_snoc. simpl.
    pose proof (chunker_fold_segments g (segments t) chunker_init) as H.
    simpl in H. fold (chunker_loop g (segments t)) in H.
    now rewrite H, E.
Qed.

(** C5. Split rule: when the loop reaches a segment, it closes the current
    chunk and starts a new one with that segment exactly when the running
    estimate plus the segment's estimate is strictly above the budget and
    the current chunk is not empty; otherwise the segment joins the current
    chunk, in particular when the sum equals the budget.  The running
    estimate is the sum of the estimates of the current chunk's segments. *)
Theorem chunker_split_rule (g : NoteGenerator) (pre : list Segment) (segment : Segment) :
  let st := chunker_loop g pre in
  let st' := chunker_loop g (pre ++ [segment]) in
  let sum := current_token_count st + _estimate_tokens (seg_text segment) in
  let closes :=
    chunks st' = (chunks st ++ [_create_chunk_transcript (current_chunk_segments st)])%list
    /\ current_chunk_segments st' = [segment]
    /\ current_token_count st' = _estimate_tokens (seg_text segment) in
  let appends :=
    chunks st' = chunks st
    /\ current_chunk_segments st' = (current_chunk_segments st ++ [segment])%list
    /\ current_token_count st' = sum in
  current_token_count st = tokens_of (current_chunk_segments st)
  /\ (closes <-> (sum > chunk_size g /\ current_chunk_segments st <> []))
  /\ (appends <-> ~ (sum > chunk_size g /\ current_chunk_segments st <> []))
  /\ (sum = chunk_size g -> appends).
Proof.
  intros st st' sum closes appends.
  assert (Hstep : st' = chunker_step g st segment) by apply chunker_loop_snoc.
  assert (Hguard : split_guard g st segment = true
                   <-> (sum > chunk_size g /\ current_chunk_segments st <> [])).
  { unfold split_guard. fold sum. rewrite andb_true_iff, Z.gtb_gt.
    destruct (current_chunk_segments st); intuition congruence. }
  assert (Hgrow : forall c, chunks st <> (chunks st ++ [c])%list).
  { intros c H. apply (f_equal (@List.length _)) in H.
    rewrite length_app in H. simpl in H. lia. }
  assert (Hdisj : closes -> appends -> False).
  { intros (Hc & _) (Ha & _). rewrite Ha in Hc. now apply Hgrow in Hc. }
  assert (Hcases : (split_guard g st segment = true /\ closes)
                   \/ (split_guard g st segment = false /\ appends)).
  { unfold closes, appends. rewrite Hstep. unfold chunker_step.
    destruct (split_guard g st segment); [left | right]; simpl; auto. }
  split; [apply chunker_loop_count|].
  destruct Hcases as [(Hg & Hc) | (Hg & Ha)].
  - pose proof (proj1 Hguard Hg) as Hcond.
    split; [|split].
    + split; [intros _; exact Hcond | intros _; exact Hc].
    + split; [intros Ha; exfalso; eauto | intros Hn; contradiction].
    + intros Heq. lia.
  - assert (Hn : ~ (sum > chunk_size g /\ current_chunk_segments st <> [])).
    { intros Hcond. apply Hguard in Hcond. congruence. }
    split; [|split].
    + split; [intros Hc; exfalso; eauto | intros Hcond; contradiction].
    + split; [intros _; exact Hn | intros _; exact Ha].
    + intros _. exact Ha.
Qed.

(** C6. The chunker is total and never returns an empty chunk: it yields a
    result for every transcript and budget, that result is never the empty
    list, and every chunk built from a transcript that has segments holds
    at least one segment; a transcript with a single segment yields exactly
    one chunk holding it, even when its estimate is above the budget; a
    transcript without segments comes back whole as the only element. *)
Theorem chunker_total_no_empty_chunk (g : NoteGenerator) (t : Transcript) :
  (exists cs, _chunk_transcript g t = cs /\ cs <> [])
  /\ (segments t <> [] ->
      (1 <= List.length (_chunk_transcript g t))%nat
      /\ forall c, In c (_chunk_transcript g t) -> segments c <> [])
  /\ (forall s, segments t = [s] ->
      _chunk_transcript g t = [_create_chunk_transcript [s]])
  /\ (segments t = [] -> _chunk_transcript g t = [t]).
Proof.
  repeat split.
  - exists (_chunk_transcript g t). split; [reflexivity|].
    destruct (segments t) as [|s segs] eqn:E.
    + unfold _chunk_transcript. rewrite E. discriminate.
    + rewrite chunk_transcript_nonempty by congruence.
      intros H. now apply app_eq_nil in H as [_ H].
  - rewrite chunk_transcript_nonempty by assumption.
    rewrite length_app. simpl. lia.
  - intros c Hin.
    pose proof (chunk_transcript_well_formed g t H) as Hwf.
    rewrite Forall_forall in Hwf. now apply Hwf.
  - intros s E. unfold _chunk_transcript. rewrite E.
    unfold chunker_loop, chunker_step, split_guard. simpl.
    now rewrite andb_false_r.
  - intros E. unfold _chunk_transcript. now rewrite E.
Qed.

(** C10. Chunk fields: every chunk the chunker builds from a transcript
    that has segments carries as text the space-joined texts of its
    segments in order, as start time the start of its first segment and as
    end time the end of its last segment. *)
Theorem chunk_fields (g : NoteGenerator) (t : Transcript) (c : Transcript) :
  segments t <> [] ->
  In c (_chunk_transcript g t) ->
  text c = Some (PyStr.join " " (map seg_text (segments c)))
  /\ exists first rest,
      segments c = first :: rest
      /\ start_time c = Some (seg_start first)
      /\ end_time c = Some (seg_end (last (segments c) first)).
Proof.
  intros Ht Hin.
  pose proof (chunk_transcript_well_formed g t Ht) as Hwf.
  rewrite Forall_forall in Hwf. destruct (Hwf c Hin) as (Hne & Hc).
  assert (Hs : start_time c = Some (first_start (segments c))) by now rewrite Hc at 1.
  assert (He : end_time c = Some (last_end (segments c))) by now rewrite Hc at 1.
  split; [now rewrite Hc at 1|].
  rewrite Hs, He. clear Hs He Hc.
  destruct (segments c) as [|first rest]; [congruence|].
  exists first, rest. split; [reflexivity|]. split; [reflexivity|].
  unfold last_end. f_equal.
  destruct (exists_last (l := first :: rest)) as (pre & z & Hz); [discriminate|].
  rewrite Hz, rev_app_distr, last_last. reflexivity.
Qed.

(** C10, witness: the second chunk of the sample transcript. *)
Lemma chunk_fields_witness :
  segments sample_transcript <> []
  /\ In sample_chunk_2 (_chunk_transcript sample_generator sample_transcript)
  /\ text sample_chunk_2 = Some (PyStr.join " " (map seg_text (segments sample_chunk_2)))
  /\ exists first rest,
      segments sample_chunk_2 = first :: rest
      /\ start_time sample_chunk_2 = Some (seg_start first)
      /\ end_time sample_chunk_2 = Some (seg_end (last (segments sample_chunk_2) first)).
Proof.
  assert (H1 : segments sample_transcript <> []) by (vm_compute; discriminate).
  assert (H2 : In sample_chunk_2 (_chunk_transcript sample_generator sample_transcript))
    by (vm_compute; right; left; reflexivity).
  split; [exact H1|]. split; [exact H2|].
  exact (chunk_fields sample_generator sample_transcript sample_chunk_2 H1 H2).
Defined.

(** The sample transcript splits after its sixth segment. *)
Example sample_chunks :
  _chunk_transcript sample_generator sample_transcript = [sample_chunk_1; sample_chunk_2].
Proof. vm_compute. reflexivity. Qed.

(* ------------------------------------------------------------------ *)
(** * Properties of the model availability check *)

Lemma prefix_iff_append (p s : string) :
  String.prefix p s = true <-> exists rest, s = p ++ rest.
Proof.
  revert s. induction p as [|c p IH]; intros s; simpl.
  - split; [intros _; now exists s | intros _; now destruct s].
  - destruct s as [|d s]; simpl.
    + split; [discriminate | intros (rest & H); discriminate].
    + destruct (ascii_dec c d) as [->|Hcd].
      * rewrite IH. split; intros (rest & H); exists rest; congruence.
      * split; [discriminate | intros (rest & H); congruence].
Qed.

Lemma str_in_iff (x : string) (names : list string) :
  str_in x names = true <-> In x names.
Proof.
  unfold str_in. rewrite existsb_exists. split.
  - intros (y & Hy & E). apply String.eqb_eq in E. now subst.
  - intros H. exists x. split; [assumption | apply String.eqb_refl].
Qed.

Lemma model_matches_iff (self : NoteGenerator) (names : list string) :
  model_matches self names = true
  <-> In (model self) names
      \/ exists name rest, In name names /\ name = base_name (model self) ++ rest.
Proof.
  unfold model_matches.
  destruct (str_in (model self) names) eqn:E.
  - apply str_in_iff in E. tauto.
  - rewrite existsb_exists. split.
    + intros (name & Hin & Hp). apply prefix_iff_append in Hp as (rest & Hr).
      right. now exists name, rest.
    + intros [Hin | (name & rest & Hin & Hr)].
      * apply str_in_iff in Hin. congruence.
      * exists name. split; [assumption|].
        apply prefix_iff_append. now exists rest.
Qed.

Lemma check_model_available_listed (client : Backend) (self : NoteGenerator)
      (tr : Trace) (entries : list ModelEntry) :
  backend_list client tr = inr entries ->
  check_model_available client self tr
  = (inr (model_matches self (collect_model_names entries)), (tr ++ [EvList])%list).
Proof.
  intros H. unfold check_model_available, try_except, bind, client_list, ret.
  now rewrite H.
Qed.

Lemma check_model_available_unreachable (client : Backend) (self : NoteGenerator)
      (tr : Trace) (msg : string) :
  backend_list client tr = inl msg ->
  check_model_available client self tr
  = (inr false,
     (tr ++ [EvList; EvPrintError ("Could not connect to Ollama: " ++ msg)])%list).
Proof.
  intros H.
  unfold check_model_available, try_except, bind, client_list, ret, print_error, emit.
  rewrite H. simpl. now rewrite <- app_assoc.
Qed.

(** C7 (as amended). Model-name matching: when the backend answers the
    listing, the check returns true exactly when the requested identifier
    is one of the installed names, or some installed name starts with the
    requested identifier's base name (the part before its first colon);
    otherwise it returns false.  The installed base name need not equal the
    requested one. *)
Theorem model_check_prefix_rule (client : Backend) (self : NoteGenerator)
        (tr : Trace) (entries : list ModelEntry) :
  backend_list client tr = inr entries ->
  exists available,
    fst (check_model_available client self tr) = inr available
    /\ (available = true
        <-> In (model self) (collect_model_names entries)
            \/ exists name rest,
                In name (collect_model_names entries)
                /\ name = base_name (model self) ++ rest).
Proof.
  intros H. rewrite (check_model_available_listed client self tr entries H).
  eexists. split; [reflexivity|]. apply model_matches_iff.
Qed.

(** C7, witness: the sample backend lists the requested model. *)
Lemma model_check_prefix_rule_witness :
  backend_list sample_backend [] = inr [ {| entry_model := Some "llama3.2:3b"; entry_name := None |} ]
  /\ exists available,
      fst (check_model_available sample_backend sample_generator []) = inr available
      /\ (available = true
          <-> In (model sample_generator)
                 (collect_model_names [ {| entry_model := Some "llama3.2:3b"; entry_name := None |} ])
              \/ exists name rest,
                  In name (collect_model_names
                             [ {| entry_model := Some "llama3.2:3b"; entry_name := None |} ])
                  /\ name = base_name (model sample_generator) ++ rest).
Proof.
  split; [reflexivity|].
  apply (model_check_prefix_rule sample_backend sample_generator []). reflexivity.
Defined.

(** The examples of the spec: a request for [llama3.2:3b] is satisfied by
    an installed [llama3.2:3b] and by an installed [llama3.2], and not by
    [mistral:7b] alone. *)
Example model_matching_examples :
  let self := sample_generator in
  model_matches self ["llama3.2:3b"] = true
  /\ model_matches self ["llama3.2"] = true
  /\ model_matches self ["mistral:7b"] = false.
Proof. repeat split. Qed.

(** C7, counterexample: with only [llama3.2:3b] installed, a request for
    [llama3:8b] passes the check although the name is not installed and no
    installed model has the base name [llama3]. *)
Lemma model_check_base_name_counterexample :
  let self := {| model := "llama3:8b"; temperature := 3 # 10; chunk_size := 8000 |} in
  fst (check_model_available sample_backend self []) = inr true
  /\ ~ spec_model_available (model self) ["llama3.2:3b"].
Proof.
  split; [reflexivity|].
  intros [Hin | (name & Hin & Hb)].
  - destruct Hin as [H | []]. discriminate.
  - destruct Hin as [<- | []]. vm_compute in Hb. discriminate.
Qed.

(* ------------------------------------------------------------------ *)
(** * Errors of the backend *)

(** C8, evaluation of the code: a backend that cannot be reached and a
    backend that lacks the model end [generate_notes] with the same
    [RuntimeError], the one that reports a missing model and suggests
    [ollama pull]; the unreachable case differs only by a message printed
    on the console before the error is raised. *)
Theorem unreachable_backend_reported_as_missing_model
        (client : Backend) (self : NoteGenerator) (t : Transcript) (stream_output : bool)
        (tr : Trace) :
  (forall msg,
      backend_list client tr = inl msg ->
      generate_notes client self t stream_output tr
      = (inl (RuntimeError (model_not_found_message self)),
         (tr ++ [EvList; EvPrintError ("Could not connect to Ollama: " ++ msg)])%list))
  /\ (forall entries,
      backend_list client tr = inr entries ->
      model_matches self (collect_model_names entries) = false ->
      generate_notes client self t stream_output tr
      = (inl (RuntimeError (model_not_found_message self)), (tr ++ [EvList])%list)).
Proof.
  split.
  - intros msg H. unfold generate_notes, bind.
    now rewrite (check_model_available_unreachable client self tr msg H).
  - intros entries H Hm. unfold generate_notes, bind.
    rewrite (check_model_available_listed client self tr entries H), Hm.
    reflexivity.
Qed.

(** C8 at the failing input: the connection is refused, and the caller is
    told that the model was not found. *)
Example unreachable_backend_run :
  generate_notes unreachable_backend sample_generator sample_transcript true []
  = (inl (RuntimeError "Model 'llama3.2:3b' not found. Run: ollama pull llama3.2:3b"),
     [EvList; EvPrintError "Could not connect to Ollama: [Errno 111] Connection refused"])
  /\ fst (generate_notes mistral_only_backend sample_generator sample_transcript true [])
     = inl (RuntimeError "Model 'llama3.2:3b' not found. Run: ollama pull llama3.2:3b").
Proof. split; reflexivity. Qed.

(* ------------------------------------------------------------------ *)
(** * Properties of the orchestrator *)

Lemma generate_calls_app (a b : Trace) :
  generate_calls (a ++ b)%list = (generate_calls a ++ generate_calls b)%list.
Proof.
  induction a as [|e a IH]; simpl; [reflexivity|].
  destruct e; simpl; now rewrite IH.
Qed.

Lemma generate_calls_map (cs : list GenerateCall) :
  generate_calls (map EvGenerate cs) = cs.
Proof. induction cs as [|c cs IH]; simpl; now rewrite ?IH. Qed.

(** The templates are filled by putting the value between the text before
    the field and the text after it. *)
Lemma note_prompt_shape (v : string) :
  PyStr.format NOTE_PROMPT_TEMPLATE "transcript" v
  = template_head NOTE_PROMPT_TEMPLATE "transcript" ++ v
      ++ template_tail NOTE_PROMPT_TEMPLATE "transcript".
Proof. vm_compute. reflexivity. Qed.

Lemma chunk_prompt_shape (v : string) :
  PyStr.format CHUNK_SUMMARY_PROMPT "transcript" v
  = template_head CHUNK_SUMMARY_PROMPT "transcript" ++ v
      ++ template_tail CHUNK_SUMMARY_PROMPT "transcript".
Proof. vm_compute. reflexivity. Qed.

Lemma merge_prompt_shape (v : string) :
  PyStr.format MERGE_NOTES_PROMPT "section_notes" v
  = template_head MERGE_NOTES_PROMPT "section_notes" ++ v
      ++ template_tail MERGE_NOTES_PROMPT "section_notes".
Proof. vm_compute. reflexivity. Qed.

Section OrchestratorFacts.

Variable client : Backend.
Variable self : NoteGenerator.

(** The last call of either strategy: one [generate] call, streamed
    when asked to. *)
Lemma generate_final_calls (prompt : string) (stream_output : bool) (tr : Trace) :
  exists c,
    generate_calls (snd (generate_final client self prompt stream_output tr))
    = (generate_calls tr ++ [c])%list
    /\ call_prompt c = prompt
    /\ call_stream c = stream_output
    /\ call_model c = model self.
Proof.
  unfold generate_final. destruct stream_output.
  - unfold _stream_generate.
    destruct (backend_stream client tr _) as [fragments [msg|]]; eexists.
    + unfold bind, print_error, emit, raise. simpl.
      rewrite !generate_calls_app. simpl. rewrite app_nil_r.
      repeat split.
    + simpl. rewrite generate_calls_app. simpl. repeat split.
  - unfold bind, client_generate.
    destruct (backend_generate client tr _); eexists; simpl;
      rewrite generate_calls_app; simpl; repeat split.
Qed.

(** The loop over the chunks, when none of its calls fails: each call is
    judged at the point of the run where it is issued. *)
Lemma chunk_pass_spec (remaining : list Transcript) :
  forall (i : nat) (notes : list string) (tr : Trace),
  (forall k chunk,
      nth_error remaining k = Some chunk ->
      exists r,
        backend_generate client
          (tr ++ map EvGenerate
                   (map (fun c => blocking_call self (chunk_prompt c)) (firstn k remaining)))%list
          (blocking_call self (chunk_prompt chunk))
        = inr r) ->
  exists responses,
    List.length responses = List.length remaining
    /\ chunk_pass client self i remaining notes tr
       = (inr (notes ++ label_sections i remaining responses)%list,
          (tr ++ map EvGenerate (map (fun c => blocking_call self (chunk_prompt c)) remaining))%list)
    /\ forall k chunk,
        nth_error remaining k = Some chunk ->
        backend_generate client
          (tr ++ map EvGenerate
                   (map (fun c => blocking_call self (chunk_prompt c)) (firstn k remaining)))%list
          (blocking_call self (chunk_prompt chunk))
        = inr (nth k responses None).
Proof.
  induction remaining as [|chunk rest IH]; intros i notes tr Hok.
  - exists []. simpl. rewrite !app_nil_r. repeat split.
    intros k c H. destruct k; discriminate.
  - destruct (Hok 0%nat chunk eq_refl) as (r & Hr).
    simpl in Hr. rewrite app_nil_r in Hr.
    destruct (IH (S i) (notes ++ [(section_label i chunk ++ response_text r)%string])%list
                 (tr ++ [EvGenerate (blocking_call self (chunk_prompt chunk))])%list)
      as (rs & Hlen & Hrun & Hrep).
    { intros k c Hk. destruct (Hok (S k) c Hk) as (r' & Hr').
      exists r'. simpl in Hr'. now rewrite <- app_assoc. }
    exists (r :: rs). split; [simpl; congruence|]. split.
    + cbn [chunk_pass label_sections map]. unfold bind, client_generate.
      rewrite Hr, Hrun. now rewrite <- !app_assoc.
    + intros k c Hk. destruct k as [|k]; simpl in *.
      * injection Hk as <-. now rewrite app_nil_r.
      * specialize (Hrep k c Hk). now rewrite <- app_assoc in Hrep.
Qed.

Lemma label_sections_length (cs : list Transcript) :
  forall (i : nat) (responses : list (option string)),
  List.length responses = List.length cs ->
  List.length (label_sections i cs responses) = List.length cs.
Proof.
  induction cs as [|c cs IH]; intros i [|r rs] H; simpl in *; try discriminate.
  - reflexivity.
  - f_equal. apply IH. congruence.
Qed.

(** The note of chunk [k], written out. *)
Lemma label_sections_nth (cs : list Transcript) :
  forall (i k : nat) (responses : list (option string)) (chunk : Transcript),
  List.length responses = List.length cs ->
  nth_error cs k = Some chunk ->
  nth_error (label_sections i cs responses) k
  = Some (("## Section " ++ PyStr.of_int (Z.of_nat (i + k) + 1)
           ++ " [" ++ format_timestamp (or_default (start_time chunk) 0%Q)
           ++ " - " ++ format_timestamp (or_default (end_time chunk) 0%Q) ++ "]"
           ++ PyStr.newline ++ PyStr.newline)
          ++ or_default (nth k responses None) "").
Proof.
  induction cs as [|c cs IH]; intros i k [|r rs] chunk Hlen Hk;
    try (destruct k; discriminate); try discriminate.
  destruct k as [|k]; cbn [label_sections nth_error nth] in *.
  - injection Hk as <-. rewrite Nat.add_0_r. reflexivity.
  - rewrite (IH (S i) k rs chunk) by (simpl in Hlen; congruence || exact Hk).
    now rewrite Nat.add_succ_comm.
Qed.

(** An exception of the backend during a generation call reaches the
    caller as it is; on the streaming path its message is printed
    first. *)
Lemma generation_errors_propagate (prompt msg : string) (tr : Trace) :
  (backend_generate client tr (blocking_call self prompt) = inl msg ->
   generate_final client self prompt false tr
   = (inl (ClientError msg), (tr ++ [EvGenerate (blocking_call self prompt)])%list))
  /\ (forall fragments c,
      c = {| call_model := model self; call_prompt := prompt;
             call_temperature := temperature self;
             call_num_predict := Some 4096; call_stream := true |} ->
      backend_stream client tr c = (fragments, Some msg) ->
      generate_final client self prompt true tr
      = (inl (ClientError msg),
         (tr ++ [EvGenerate c; EvPrintError ("Generation error: " ++ msg)])%list)).
Proof.
  split.
  - intros H. unfold generate_final, bind, client_generate. now rewrite H.
  - intros fragments c -> H. unfold generate_final, _stream_generate.
    rewrite H. unfold bind, print_error, emit, raise. simpl.
    now rewrite <- app_assoc.
Qed.

End OrchestratorFacts.

(** C2 (as amended). Chunked pass: when none of the chunk-summary calls
    raises, the pass issues one non-streaming chunk-summary call per chunk,
    in chunk order, each on the chunk-summary prompt of its chunk.  The
    reply to the call of chunk [k] (counted from 0) becomes the section
    note [## Section k+1 [start - end]], two newlines and the reply's
    text, where [start] and [end] are the chunk's ['start_time'] and
    ['end_time'] as [format_timestamp] prints them; the section notes are
    kept in chunk order.  Then exactly one more call is issued, streamed
    when asked to, on the merge template filled with the section notes
    joined in that same order. *)
Theorem chunked_pass_calls (client : Backend) (self : NoteGenerator)
        (t : Transcript) (stream_output : bool) (tr : Trace) :
  let cs := _chunk_transcript self t in
  let summary_calls := map (fun c => blocking_call self (chunk_prompt c)) cs in
  (forall k chunk,
      nth_error cs k = Some chunk ->
      exists r,
        backend_generate client (tr ++ map EvGenerate (firstn k summary_calls))%list
          (blocking_call self (chunk_prompt chunk))
        = inr r) ->
  exists (responses : list (option string)) (merge_call : GenerateCall),
    List.length responses = List.length cs
    /\ List.length (label_sections 0 cs responses) = List.length cs
    /\ Forall (fun c => call_stream c = false) summary_calls
    /\ (forall k chunk,
          nth_error cs k = Some chunk ->
          call_prompt (nth k summary_calls merge_call)
          = template_head CHUNK_SUMMARY_PROMPT "transcript"
              ++ _format_transcript_for_prompt chunk
              ++ template_tail CHUNK_SUMMARY_PROMPT "transcript"
          /\ backend_generate client (tr ++ map EvGenerate (firstn k summary_calls))%list
               (nth k summary_calls merge_call)
             = inr (nth k responses None)
          /\ nth_error (label_sections 0 cs responses) k
             = Some (("## Section " ++ PyStr.of_int (Z.of_nat k + 1)
                      ++ " [" ++ format_timestamp (or_default (start_time chunk) 0%Q)
                      ++ " - " ++ format_timestamp (or_default (end_time chunk) 0%Q) ++ "]"
                      ++ PyStr.newline ++ PyStr.newline)
                     ++ or_default (nth k responses None) ""))
    /\ generate_calls (snd (_generate_chunked client self t stream_output tr))
       = (generate_calls tr ++ summary_calls ++ [merge_call])%list
    /\ call_stream merge_call = stream_output
    /\ call_prompt merge_call
       = template_head MERGE_NOTES_PROMPT "section_notes"
           ++ PyStr.join section_separator (label_sections 0 cs responses)
           ++ template_tail MERGE_NOTES_PROMPT "section_notes".
Proof.
  intros cs summary_calls Hok.
  destruct (chunk_pass_spec client self cs 0%nat [] tr) as (rs & Hlen & Hrun & Hrep).
  { intros k chunk Hk. destruct (Hok k chunk Hk) as (r & Hr).
    exists r. unfold summary_calls in Hr. now rewrite firstn_map in Hr. }
  destruct (generate_final_calls client self
              (merge_prompt (label_sections 0 cs rs)) stream_output
              (tr ++ map EvGenerate summary_calls)%list)
    as (mc & Hcalls & Hprompt & Hstream & _).
  exists rs, mc. split; [exact Hlen|].
  split; [now apply label_sections_length|]. split.
  { unfold summary_calls. apply Forall_forall. intros c Hin.
    apply in_map_iff in Hin as (ch & <- & _). reflexivity. }
  split.
  { intros k chunk Hk.
    assert (Hnth : nth k summary_calls mc = blocking_call self (chunk_prompt chunk)).
    { unfold summary_calls. apply nth_error_nth.
      now rewrite nth_error_map, Hk. }
    rewrite Hnth. split; [|split].
    - simpl. unfold chunk_prompt. apply chunk_prompt_shape.
    - unfold summary_calls. rewrite firstn_map.
      now apply Hrep.
    - now apply (label_sections_nth cs 0 k rs chunk). }
  split.
  { unfold _generate_chunked, bind. fold cs. rewrite Hrun. simpl.
    fold summary_calls. rewrite Hcalls, generate_calls_app, generate_calls_map.
    now rewrite <- app_assoc. }
  split; [exact Hstream|].
  rewrite Hprompt. unfold merge_prompt. apply merge_prompt_shape.
Qed.

(** C2, witness: the sample transcript on the sample backend, whose
    blocking calls never fail. *)
Lemma chunked_pass_calls_witness :
  let cs := _chunk_transcript sample_generator sample_transcript in
  let summary_calls := map (fun c => blocking_call sample_generator (chunk_prompt c)) cs in
  (forall k chunk,
      nth_error cs k = Some chunk ->
      exists r,
        backend_generate sample_backend ([] ++ map EvGenerate (firstn k summary_calls))%list
          (blocking_call sample_generator (chunk_prompt chunk))
        = inr r)
  /\ exists (responses : list (option string)) (merge_call : GenerateCall),
       List.length responses = List.length cs
       /\ List.length (label_sections 0 cs responses) = List.length cs
       /\ Forall (fun c => call_stream c = false) summary_calls
       /\ (forall k chunk,
             nth_error cs k = Some chunk ->
             call_prompt (nth k summary_calls merge_call)
             = template_head CHUNK_SUMMARY_PROMPT "transcript"
                 ++ _format_transcript_for_prompt chunk
                 ++ template_tail CHUNK_SUMMARY_PROMPT "transcript"
             /\ backend_generate sample_backend ([] ++ map EvGenerate (firstn k summary_calls))%list
                  (nth k summary_calls merge_call)
                = inr (nth k responses None)
             /\ nth_error (label_sections 0 cs responses) k
                = Some (("## Section " ++ PyStr.of_int (Z.of_nat k + 1)
                         ++ " [" ++ format_timestamp (or_default (start_time chunk) 0%Q)
                         ++ " - " ++ format_timestamp (or_default (end_time chunk) 0%Q) ++ "]"
                         ++ PyStr.newline ++ PyStr.newline)
                        ++ or_default (nth k responses None) ""))
       /\ generate_calls
            (snd (_generate_chunked sample_backend sample_generator sample_transcript true []))
          = (generate_calls [] ++ summary_calls ++ [merge_call])%list
       /\ call_stream merge_call = true
       /\ call_prompt merge_call
          = template_head MERGE_NOTES_PROMPT "section_notes"
              ++ PyStr.join section_separator (label_sections 0 cs responses)
              ++ template_tail MERGE_NOTES_PROMPT "section_notes".
Proof.
  intros cs summary_calls.
  assert (Hok : forall k chunk,
             nth_error cs k = Some chunk ->
             exists r,
               backend_generate sample_backend ([] ++ map EvGenerate (firstn k summary_calls))%list
                 (blocking_call sample_generator (chunk_prompt chunk))
               = inr r)
    by (intros k chunk _; eexists; reflexivity).
  split; [exact Hok|].
  exact (chunked_pass_calls sample_backend sample_generator sample_transcript true [] Hok).
Defined.

(** C2, counterexample to the claim without its condition: on a backend
    that has the model but times out on every generation call,
    [generate_notes] passes the model check and takes the chunked path for
    the sample transcript, which makes two chunks; the pass issues a single
    chunk-summary call, which raises: the second chunk is never summarised
    and no merge call follows. *)
Lemma chunked_pass_failure_counterexample :
  let cs := _chunk_transcript sample_generator sample_transcript in
  let summary_calls := map (fun c => blocking_call sample_generator (chunk_prompt c)) cs in
  let run := _generate_chunked timing_out_backend sample_generator sample_transcript true [EvList] in
  generate_notes timing_out_backend sample_generator sample_transcript true [] = run
  /\ List.length cs = 2%nat
  /\ fst run = inl (ClientError "timed out")
  /\ generate_calls (snd run) = firstn 1 summary_calls
  /\ ~ (exists merge_call : GenerateCall,
          generate_calls (snd run)
          = (generate_calls [EvList] ++ summary_calls ++ [merge_call])%list).
Proof.
  intros cs summary_calls run.
  assert (L1 : List.length (generate_calls (snd run)) = 1%nat) by (vm_compute; reflexivity).
  assert (L2 : List.length summary_calls = 2%nat) by (vm_compute; reflexivity).
  split; [vm_compute; reflexivity|].
  split; [vm_compute; reflexivity|].
  split; [vm_compute; reflexivity|].
  split; [vm_compute; reflexivity|].
  intros (mc & H). apply (f_equal (@List.length _)) in H.
  rewrite L1 in H. cbn [generate_calls app] in H.
  rewrite length_app, L2 in H. simpl in H. lia.
Qed.

(** The chunked scenario of the spec on the sample transcript: two chunks,
    two non-streaming chunk-summary calls, then one merge call whose prompt
    holds both section notes in order. *)
Example chunked_scenario :
  let run := _generate_chunked sample_backend sample_generator sample_transcript true [] in
  fst run = inr "final notes"
  /\ map call_stream (generate_calls (snd run)) = [false; false; true]
  /\ map call_prompt (generate_calls (snd run))
     = [ chunk_prompt sample_chunk_1;
         chunk_prompt sample_chunk_2;
         template_head MERGE_NOTES_PROMPT "section_notes"
           ++ "## Section 1 [00:00 - 01:00]" ++ PyStr.newline ++ PyStr.newline
           ++ "summary after 0 events"
           ++ section_separator
           ++ "## Section 2 [01:00 - 01:40]" ++ PyStr.newline ++ PyStr.newline
           ++ "summary after 1 events"
           ++ template_tail MERGE_NOTES_PROMPT "section_notes" ].
Proof. vm_compute. repeat split. Qed.

(** C3 (as amended). Strategy decision: once the model check has passed,
    [generate_notes] estimates the tokens of the transcript's text and
    takes the single-pass path, one generation call on the single-pass note
    template, when the estimate is at most the budget; it takes the chunked
    path when the estimate is strictly above the budget.  An estimate equal
    to the budget takes the single-pass path. *)
Theorem strategy_decision (client : Backend) (self : NoteGenerator)
        (t : Transcript) (stream_output : bool) (tr : Trace) :
  fst (check_model_available client self tr) = inr true ->
  let tr1 := snd (check_model_available client self tr) in
  let total_tokens := _estimate_tokens (or_default (text t) "") in
  (total_tokens <= chunk_size self ->
   generate_notes client self t stream_output tr
   = _generate_single client self t stream_output tr1
   /\ exists c,
       generate_calls (snd (generate_notes client self t stream_output tr))
       = (generate_calls tr1 ++ [c])%list
       /\ call_stream c = stream_output
       /\ call_prompt c
          = template_head NOTE_PROMPT_TEMPLATE "transcript"
              ++ _format_transcript_for_prompt t
              ++ template_tail NOTE_PROMPT_TEMPLATE "transcript")
  /\ (total_tokens > chunk_size self ->
      generate_notes client self t stream_output tr
      = _generate_chunked client self t stream_output tr1).
Proof.
  intros Hcheck tr1 total_tokens.
  assert (Hrun : check_model_available client self tr = (inr true, tr1)).
  { unfold tr1. destruct (check_model_available client self tr) as [r tr']. simpl in *.
    now subst. }
  assert (Hgen : generate_notes client self t stream_output tr
                 = if (total_tokens >? chunk_size self)
                   then _generate_chunked client self t stream_output tr1
                   else _generate_single client self t stream_output tr1).
  { unfold generate_notes, bind. rewrite Hrun. simpl. fold total_tokens.
    now destruct (total_tokens >? chunk_size self). }
  split.
  - intros Hle.
    assert (E : (total_tokens >? chunk_size self) = false).
    { apply not_true_is_false. rewrite Z.gtb_gt. lia. }
    rewrite Hgen, E. split; [reflexivity|].
    unfold _generate_single.
    destruct (generate_final_calls client self
                (PyStr.format NOTE_PROMPT_TEMPLATE "transcript" (_format_transcript_for_prompt t))
                stream_output tr1) as (c & Hc & Hp & Hs & _).
    exists c. split; [exact Hc|]. split; [exact Hs|].
    rewrite Hp. apply note_prompt_shape.
  - intros Hgt.
    assert (E : (total_tokens >? chunk_size self) = true) by (rewrite Z.gtb_gt; lia).
    now rewrite Hgen, E.
Qed.

(** C3, witness: the sample transcript against a budget of 52 tokens. *)
Lemma strategy_decision_witness :
  fst (check_model_available sample_backend budget_52 []) = inr true
  /\ let tr1 := snd (check_model_available sample_backend budget_52 []) in
     let total_tokens := _estimate_tokens (or_default (text sample_transcript) "") in
     (total_tokens <= chunk_size budget_52 ->
      generate_notes sample_backend budget_52 sample_transcript false []
      = _generate_single sample_backend budget_52 sample_transcript false tr1
      /\ exists c,
          generate_calls (snd (generate_notes sample_backend budget_52 sample_transcript false []))
          = (generate_calls tr1 ++ [c])%list
          /\ call_stream c = false
          /\ call_prompt c
             = template_head NOTE_PROMPT_TEMPLATE "transcript"
                 ++ _format_transcript_for_prompt sample_transcript
                 ++ template_tail NOTE_PROMPT_TEMPLATE "transcript")
     /\ (total_tokens > chunk_size budget_52 ->
         generate_notes sample_backend budget_52 sample_transcript false []
         = _generate_chunked sample_backend budget_52 sample_transcript false tr1).
Proof.
  split; [reflexivity|].
  apply (strategy_decision sample_backend budget_52 sample_transcript false []).
  reflexivity.
Defined.

(** C3, counterexample: the estimate of the sample transcript equals the
    budget of 52, and [generate_notes] makes the single call of the
    single-pass path, not the chunk-summary and merge calls of the chunked
    path. *)
Lemma strategy_at_budget_counterexample :
  _estimate_tokens (or_default (text sample_transcript) "") = chunk_size budget_52
  /\ generate_notes sample_backend budget_52 sample_transcript false []
     = _generate_single sample_backend budget_52 sample_transcript false [EvList]
  /\ generate_notes sample_backend budget_52 sample_transcript false []
     <> _generate_chunked sample_backend budget_52 sample_transcript false [EvList]
  /\ List.length
       (generate_calls (snd (generate_notes sample_backend budget_52 sample_transcript false [])))
     = 1%nat
  /\ List.length
       (generate_calls (snd (_generate_chunked sample_backend budget_52 sample_transcript false [EvList])))
     = 2%nat.
Proof.
  split; [vm_compute; reflexivity|].
  split; [vm_compute; reflexivity|].
  split; [|split; vm_compute; reflexivity].
  intros H. apply (f_equal (fun r => List.length (snd r))) in H.
  vm_compute in H. discriminate.
Qed.

(* ------------------------------------------------------------------ *)
(** * Properties of the file fingerprint *)

Section StringFacts.

Lemma append_inv_head (p s1 s2 : string) : p ++ s1 = p ++ s2 -> s1 = s2.
Proof. induction p as [|c p IH]; simpl; [auto|]. intros H. injection H. auto. Qed.

Lemma list_ascii_of_append (s t : string) :
  list_ascii_of_string (s ++ t) = (list_ascii_of_string s ++ list_ascii_of_string t)%list.
Proof. induction s as [|c s IH]; simpl; now rewrite ?IH. Qed.

Lemma list_ascii_of_string_inj (s t : string) :
  list_ascii_of_string s = list_ascii_of_string t -> s = t.
Proof.
  intros H. rewrite <- (string_of_list_ascii_of_string s), H.
  apply string_of_list_ascii_of_string.
Qed.

Lemma append_inv_tail (t s1 s2 : string) : s1 ++ t = s2 ++ t -> s1 = s2.
Proof.
  intros H. apply list_ascii_of_string_inj.
  apply (f_equal list_ascii_of_string) in H.
  rewrite !list_ascii_of_append in H. now apply app_inv_tail in H.
Qed.

Lemma append_assoc (a b c : string) : (a ++ b) ++ c = a ++ (b ++ c).
Proof. induction a as [|x a IH]; simpl; now rewrite ?IH. Qed.

Lemma to_int_not_nil (z : Z) :
  Z.to_int z <> Decimal.Pos Decimal.Nil /\ Z.to_int z <> Decimal.Neg Decimal.Nil.
Proof.
  assert (E : Z.to_int z = Decimal.norm (Z.to_int z)).
  { rewrite <- DecimalZ.to_of. now rewrite DecimalZ.of_to. }
  rewrite E.
  destruct (Z.to_int z) as [d|d]; simpl; unfold Decimal.unorm;
    destruct (Decimal.nzhead d); split; discriminate.
Qed.

Lemma of_int_inj (x y : Z) : PyStr.of_int x = PyStr.of_int y -> x = y.
Proof.
  unfold PyStr.of_int. intros H. apply DecimalZ.to_int_inj.
  destruct (to_int_not_nil x) as [Hx1 Hx2], (to_int_not_nil y) as [Hy1 Hy2].
  pose proof (NilZero.isi _ Hx1 Hx2) as Ex. pose proof (NilZero.isi _ Hy1 Hy2) as Ey.
  rewrite H in Ex. congruence.
Qed.

End StringFacts.

Section ReprFacts.

Lemma read_repr_byte_squote (b : Byte.byte) (rest : string) :
  read_repr_byte (PyBytes.repr_byte PyBytes.squote b ++ rest) = Some (b, rest).
Proof. destruct b; vm_compute; reflexivity. Qed.

Lemma read_repr_byte_dquote (b : Byte.byte) (rest : string) :
  read_repr_byte (PyBytes.repr_byte PyBytes.dquote b ++ rest) = Some (b, rest).
Proof. destruct b; vm_compute; reflexivity. Qed.

Lemma pick_quote_cases (bs : list Byte.byte) :
  PyBytes.pick_quote bs = PyBytes.squote \/ PyBytes.pick_quote bs = PyBytes.dquote.
Proof. unfold PyBytes.pick_quote. destruct (_ && _); auto. Qed.

Lemma repr_body_inj (q : ascii) (bs1 bs2 : list Byte.byte) :
  q = PyBytes.squote \/ q = PyBytes.dquote ->
  String.concat "" (map (PyBytes.repr_byte q) bs1)
  = String.concat "" (map (PyBytes.repr_byte q) bs2) ->
  bs1 = bs2.
Proof.
  intros Hq.
  assert (Hread : forall b rest,
             read_repr_byte (PyBytes.repr_byte q b ++ rest) = Some (b, rest)).
  { destruct Hq as [-> | ->]; [apply read_repr_byte_squote | apply read_repr_byte_dquote]. }
  assert (Hcons : forall b bs,
             String.concat "" (map (PyBytes.repr_byte q) (b :: bs))
             = PyBytes.repr_byte q b ++ String.concat "" (map (PyBytes.repr_byte q) bs)).
  { intros b bs. simpl. destruct (map (PyBytes.repr_byte q) bs) eqn:E.
    - simpl. clear. induction (PyBytes.repr_byte q b); simpl; congruence.
    - reflexivity. }
  revert bs2. induction bs1 as [|b1 bs1 IH]; intros [|b2 bs2] H.
  - reflexivity.
  - rewrite Hcons in H. apply (f_equal read_repr_byte) in H.
    rewrite Hread in H. discriminate.
  - rewrite Hcons in H. apply (f_equal read_repr_byte) in H.
    rewrite Hread in H. discriminate.
  - rewrite !Hcons in H. apply (f_equal read_repr_byte) in H.
    rewrite !Hread in H. injection H as -> H. f_equal. now apply IH.
Qed.

(** Distinct byte strings have distinct [repr]s. *)
Lemma repr_inj (bs1 bs2 : list Byte.byte) :
  PyBytes.repr bs1 = PyBytes.repr bs2 -> bs1 = bs2.
Proof.
  unfold PyBytes.repr. simpl. intros H. injection H as Hq H.
  rewrite <- Hq in H. apply append_inv_tail in H.
  apply (repr_body_inj (PyBytes.pick_quote bs1)); [apply pick_quote_cases | exact H].
Qed.

Lemma read_utf8_char_encode (c : ascii) (rest : list Z) :
  read_utf8_char (PyBytes.encode_char c ++ rest) = Some (c, rest).
Proof.
  destruct c as [[] [] [] [] [] [] [] []]; vm_compute; reflexivity.
Qed.

Lemma encode_inj (s t : string) : PyBytes.encode s = PyBytes.encode t -> s = t.
Proof.
  unfold PyBytes.encode. intros H. apply list_ascii_of_string_inj.
  revert H. generalize (list_ascii_of_string t). generalize (list_ascii_of_string s).
  induction l as [|c l IH]; intros [|d l'] H; simpl in H.
  - reflexivity.
  - apply (f_equal read_utf8_char) in H. rewrite read_utf8_char_encode in H. discriminate.
  - apply (f_equal read_utf8_char) in H. rewrite read_utf8_char_encode in H. discriminate.
  - apply (f_equal read_utf8_char) in H. rewrite !read_utf8_char_encode in H.
    injection H as -> H. f_equal. now apply IH.
Qed.

End ReprFacts.

Section DigestFacts.

Lemma hex_digit_is_hex (n : Z) : is_hex_char (MD5.hex_digit n).
Proof.
  unfold is_hex_char, MD5.hex_digit.
  destruct (nth_in_or_default (Z.to_nat n)
              (list_ascii_of_string "0123456789abcdef") "0"%char) as [H | ->].
  - exact H.
  - simpl. auto.
Qed.

(** The digest has sixteen bytes. *)
Lemma digest_bytes (msg : list Z) :
  exists b0 b1 b2 b3 b4 b5 b6 b7 b8 b9 b10 b11 b12 b13 b14 b15,
    MD5.digest msg = [b0; b1; b2; b3; b4; b5; b6; b7; b8; b9; b10; b11; b12; b13; b14; b15].
Proof.
  unfold MD5.digest. generalize (MD5.process (List.length (MD5.pad msg) / 64) MD5.init (MD5.pad msg)).
  intros st. unfold MD5.bytes_of_word. simpl. repeat eexists.
Qed.

(** The first twelve characters of a hexdigest are the digits of its
    first six bytes. *)
Lemma hexdigest_prefix (msg : list Z) :
  exists b0 b1 b2 b3 b4 b5,
    String.substring 0 12 (MD5.hexdigest msg)
    = string_of_list_ascii
        [ MD5.hex_digit (b0 / 16); MD5.hex_digit (b0 mod 16);
          MD5.hex_digit (b1 / 16); MD5.hex_digit (b1 mod 16);
          MD5.hex_digit (b2 / 16); MD5.hex_digit (b2 mod 16);
          MD5.hex_digit (b3 / 16); MD5.hex_digit (b3 mod 16);
          MD5.hex_digit (b4 / 16); MD5.hex_digit (b4 mod 16);
          MD5.hex_digit (b5 / 16); MD5.hex_digit (b5 mod 16) ].
Proof.
  destruct (digest_bytes msg)
    as (b0 & b1 & b2 & b3 & b4 & b5 & b6 & b7 & b8 & b9 & b10 & b11 & b12 & b13 & b14 & b15 & E).
  exists b0, b1, b2, b3, b4, b5. unfold MD5.hexdigest. rewrite E. reflexivity.
Qed.

End DigestFacts.

(** C9 (as amended). The file fingerprint is a function of the first MiB
    of the file's bytes, its size and its modification time, and is a
    string of 12 lower-case hexadecimal digits: the same three values give
    the same key, and changing exactly one of them changes the bytes that
    are digested, so that the keys differ unless the two MD5 digests agree
    on their first 12 digits. *)
Theorem fingerprint_properties (PyFloat : Type) (float_str : PyFloat -> string) :
  (forall f1 f2 : File PyFloat,
      first_chunk f1 = first_chunk f2 ->
      st_size f1 = st_size f2 ->
      st_mtime f1 = st_mtime f2 ->
      get_file_hash float_str f1 = get_file_hash float_str f2)
  /\ (forall f : File PyFloat,
      String.length (get_file_hash float_str f) = 12%nat
      /\ Forall is_hex_char (list_ascii_of_string (get_file_hash float_str f)))
  /\ (forall f : File PyFloat,
      get_file_hash float_str f
      = String.substring 0 12
          (MD5.hexdigest
             (PyBytes.encode (hash_input float_str (first_chunk f) (st_size f) (st_mtime f)))))
  /\ ((forall x y, float_str x = float_str y -> x = y) ->
      forall c1 s1 m1 c2 s2 m2,
        (c1 <> c2 /\ s1 = s2 /\ m1 = m2)
        \/ (c1 = c2 /\ s1 <> s2 /\ m1 = m2)
        \/ (c1 = c2 /\ s1 = s2 /\ m1 <> m2) ->
        PyBytes.encode (hash_input float_str c1 s1 m1)
        <> PyBytes.encode (hash_input float_str c2 s2 m2)).
Proof.
  split; [|split; [|split]].
  - intros f1 f2 Hc Hs Hm. unfold get_file_hash. now rewrite Hc, Hs, Hm.
  - intros f. unfold get_file_hash, fingerprint.
    destruct (hexdigest_prefix
                (PyBytes.encode (hash_input float_str (first_chunk f) (st_size f) (st_mtime f))))
      as (b0 & b1 & b2 & b3 & b4 & b5 & ->).
    split; [reflexivity|].
    rewrite list_ascii_of_string_of_list_ascii.
    repeat (constructor; [apply hex_digit_is_hex|]). constructor.
  - reflexivity.
  - intros Hinj c1 s1 m1 c2 s2 m2 Hone H.
    apply encode_inj in H. unfold hash_input in H.
    destruct Hone as [(Hc & -> & ->) | [(-> & Hs & ->) | (-> & -> & Hm)]].
    + rewrite <- !append_assoc in H. apply append_inv_tail in H.
      apply append_inv_tail in H. now apply repr_inj in H.
    + apply append_inv_head in H. apply append_inv_tail in H.
      now apply of_int_inj in H.
    + apply append_inv_head in H. apply append_inv_head in H. now apply Hinj in H.
Qed.

(** C9, witness: the rendering of whole-second modification times tells
    them apart, so two such times give different digest inputs. *)
Lemma fingerprint_properties_witness :
  (forall x y, whole_seconds_str x = whole_seconds_str y -> x = y)
  /\ PyBytes.encode (hash_input whole_seconds_str lecture_bytes 7 1755323271%N)
     <> PyBytes.encode (hash_input whole_seconds_str lecture_bytes 7 1766339272%N).
Proof.
  assert (Hinj : forall x y, whole_seconds_str x = whole_seconds_str y -> x = y).
  { intros x y H. unfold whole_seconds_str in H.
    apply append_inv_tail, of_int_inj in H. lia. }
  split; [exact Hinj|].
  apply (proj2 (proj2 (proj2 (fingerprint_properties N whole_seconds_str))) Hinj).
  right. right. repeat split. discriminate.
Defined.

(** C9, counterexample: two states of the same seven-byte file that differ
    only in the modification time, 1755323271.0 against 1766339272.0, get
    the same key. *)
Lemma fingerprint_collision_counterexample :
  let f1 := lecture_file 1755323271 in
  let f2 := lecture_file 1766339272 in
  first_chunk f1 = first_chunk f2
  /\ st_size f1 = st_size f2
  /\ st_mtime f1 <> st_mtime f2
  /\ get_file_hash whole_seconds_str f1 = "14ba54387441"
  /\ get_file_hash whole_seconds_str f2 = "14ba54387441".
Proof.
  repeat split; try discriminate; vm_compute; reflexivity.
Qed.

(* ------------------------------------------------------------------ *)
(** * The token estimate in binary64 *)

Section Binary64Facts.

Local Open Scope Z_scope.

Lemma digits2_pos_bounds (p : positive) :
  2 ^ (Zpos (digits2_pos p) - 1) <= Zpos p < 2 ^ Zpos (digits2_pos p).
Proof.
  induction p as [p IH | p IH |]; simpl digits2_pos.
  - rewrite Pos2Z.inj_succ. change (Zpos p~1) with (2 * Zpos p + 1).
    replace (Z.succ (Zpos (digits2_pos p)) - 1) with (Z.succ (Zpos (digits2_pos p) - 1)) by lia.
    rewrite !Z.pow_succ_r by lia.
    generalize dependent (2 ^ (Zpos (digits2_pos p) - 1)).
    generalize (2 ^ Zpos (digits2_pos p)). intros; lia.
  - rewrite Pos2Z.inj_succ. change (Zpos p~0) with (2 * Zpos p).
    replace (Z.succ (Zpos (digits2_pos p)) - 1) with (Z.succ (Zpos (digits2_pos p) - 1)) by lia.
    rewrite !Z.pow_succ_r by lia.
    generalize dependent (2 ^ (Zpos (digits2_pos p) - 1)).
    generalize (2 ^ Zpos (digits2_pos p)). intros; lia.
  - simpl. lia.
Qed.

Lemma digits2_pos_unique (p : positive) (D : Z) :
  2 ^ (D - 1) <= Zpos p < 2 ^ D -> Zpos (digits2_pos p) = D.
Proof.
  intros [Hlo Hhi]. pose proof (digits2_pos_bounds p) as [Blo Bhi].
  assert (H0 : 0 <= D).
  { destruct (Z.lt_ge_cases D 0) as [Hn|]; [|assumption].
    rewrite (Z.pow_neg_r 2 D Hn) in Hhi. lia. }
  destruct (Z.lt_trichotomy (Zpos (digits2_pos p)) D) as [Hlt | [Heq | Hgt]].
  - assert (2 ^ Zpos (digits2_pos p) <= 2 ^ (D - 1)) by (apply Z.pow_le_mono_r; lia). lia.
  - exact Heq.
  - assert (2 ^ D <= 2 ^ (Zpos (digits2_pos p) - 1)) by (apply Z.pow_le_mono_r; lia). lia.
Qed.

Lemma iter_xO_value (p k : positive) :
  Zpos (Pos.iter xO p k) = Zpos p * 2 ^ Zpos k.
Proof.
  induction k as [|k IH] using Pos.peano_ind.
  - simpl. lia.
  - rewrite Pos.iter_succ.
    change (Zpos (Pos.iter xO p k)~0) with (2 * Zpos (Pos.iter xO p k)).
    rewrite IH, Pos2Z.inj_succ, Z.pow_succ_r by lia. lia.
Qed.

Lemma shr_1_m (mrs : shr_record) :
  0 <= shr_m mrs -> shr_m (shr_1 mrs) = shr_m mrs / 2 /\ 0 <= shr_m (shr_1 mrs).
Proof.
  destruct mrs as [m r s]. cbn [shr_m]. intros Hm.
  assert (E : shr_m (shr_1 {| shr_m := m; shr_r := r; shr_s := s |}) = Z.div2 m).
  { destruct m as [|[p|p|]|p]; try reflexivity; lia. }
  cbn [shr_m] in E. rewrite E, Z.div2_div. split; [reflexivity|]. apply Z.div_pos; lia.
Qed.

Lemma iter_pos_shr_m (k : positive) (mrs : shr_record) :
  0 <= shr_m mrs ->
  shr_m (iter_pos shr_1 k mrs) = shr_m mrs / 2 ^ Zpos k
  /\ 0 <= shr_m (iter_pos shr_1 k mrs).
Proof.
  revert mrs. induction k as [k IH | k IH |]; intros mrs Hm; simpl iter_pos.
  - destruct (shr_1_m mrs Hm) as [E1 P1].
    destruct (IH _ P1) as [E2 P2]. destruct (IH _ P2) as [E3 P3].
    split; [|exact P3]. rewrite E3, E2, E1.
    rewrite !Z.div_div by (try apply Z.pow_pos_nonneg; lia).
    f_equal. change (Zpos k~1) with (2 * Zpos k + 1).
    replace (2 * Zpos k + 1) with (Z.succ (Zpos k + Zpos k)) by lia.
    rewrite Z.pow_succ_r, Z.pow_add_r by lia. lia.
  - destruct (IH _ Hm) as [E2 P2]. destruct (IH _ P2) as [E3 P3].
    split; [|exact P3]. rewrite E3, E2.
    rewrite !Z.div_div by (try apply Z.pow_pos_nonneg; lia).
    f_equal. change (Zpos k~0) with (2 * Zpos k).
    replace (2 * Zpos k) with (Zpos k + Zpos k) by lia.
    now rewrite Z.pow_add_r by lia.
  - destruct (shr_1_m mrs Hm) as [E1 P1]. split; [|exact P1].
    rewrite E1. reflexivity.
Qed.

Lemma round_nearest_even_bounds (q : Z) (l : location) :
  q <= round_nearest_even q l <= q + 1.
Proof.
  destruct l as [|[| |]]; simpl; try lia. destruct (Z.even q); lia.
Qed.

Lemma shr_m_of_loc (m : Z) (l : location) : shr_m (shr_record_of_loc m l) = m.
Proof. destruct l as [|[| |]]; reflexivity. Qed.

Lemma fexp_normal (x : Z) :
  -1021 <= x -> fexp Binary64.prec Binary64.emax x = x - 53.
Proof. unfold fexp, emin, Binary64.prec, Binary64.emax. lia. Qed.

(** A mantissa of 53 digits is kept as it is. *)
Lemma shr_fexp_keep (m : positive) (e : Z) (l : location) :
  Zpos (digits2_pos m) = 53 -> -1074 <= e ->
  shr_fexp Binary64.prec Binary64.emax (Zpos m) e l = (shr_record_of_loc (Zpos m) l, e).
Proof.
  intros Hd He. unfold shr_fexp. cbn [Zdigits2]. rewrite Hd, fexp_normal by lia.
  replace (53 + e - 53 - e) with 0 by lia. reflexivity.
Qed.

(** A mantissa of [53 + k] digits is shifted right by [k]. *)
Lemma shr_fexp_shift (m : positive) (e : Z) (l : location) (k : positive) :
  Zpos (digits2_pos m) = 53 + Zpos k -> -1074 <= e + Zpos k ->
  shr_fexp Binary64.prec Binary64.emax (Zpos m) e l
  = (iter_pos shr_1 k (shr_record_of_loc (Zpos m) l), e + Zpos k).
Proof.
  intros Hd He. unfold shr_fexp. cbn [Zdigits2]. rewrite Hd, fexp_normal by lia.
  replace (53 + Zpos k + e - 53 - e) with (Zpos k) by lia. reflexivity.
Qed.

Lemma binary_round_aux_keep (m : positive) (e : Z) :
  Zpos (digits2_pos m) = 53 -> -1074 <= e <= 971 ->
  binary_round_aux Binary64.prec Binary64.emax false (Zpos m) e loc_Exact
  = S754_finite false m e.
Proof.
  intros Hd He. unfold binary_round_aux.
  rewrite (shr_fexp_keep m e loc_Exact Hd) by lia.
  cbn [shr_record_of_loc shr_m loc_of_shr_record round_nearest_even].
  rewrite (shr_fexp_keep m e loc_Exact Hd) by lia.
  cbn [shr_record_of_loc shr_m].
  unfold Binary64.emax, Binary64.prec.
  destruct (Z.leb_spec e (1024 - 53)); [reflexivity | lia].
Qed.

(** Rounding a mantissa of [53 + k] digits: the result is the quotient
    by [2^k] or its successor, possibly renormalised by one more
    shift. *)
Lemma binary_round_aux_shift (m : positive) (e : Z) (k : positive) :
  Zpos (digits2_pos m) = 53 + Zpos k ->
  -1074 <= e + Zpos k -> e + Zpos k + 1 <= 971 ->
  let q := Zpos m / 2 ^ Zpos k in
  exists m' e',
    binary_round_aux Binary64.prec Binary64.emax false (Zpos m) e loc_Exact
    = S754_finite false m' e'
    /\ ((e' = e + Zpos k /\ q <= Zpos m' <= q + 1)
        \/ (e' = e + Zpos k + 1 /\ q <= 2 * Zpos m' <= q + 1)).
Proof.
  intros Hd Hlo Hhi q. unfold binary_round_aux.
  rewrite (shr_fexp_shift m e loc_Exact k Hd Hlo).
  destruct (iter_pos_shr_m k (shr_record_of_loc (Zpos m) loc_Exact)) as [Em _];
    [rewrite shr_m_of_loc; lia|].
  rewrite shr_m_of_loc in Em. fold q in Em.
  set (mrs := iter_pos shr_1 k (shr_record_of_loc (Zpos m) loc_Exact)) in *.
  pose proof (round_nearest_even_bounds (shr_m mrs) (loc_of_shr_record mrs)) as Hr.
  set (m1 := round_nearest_even (shr_m mrs) (loc_of_shr_record mrs)) in *.
  rewrite Em in Hr.
  assert (Hq : 2 ^ 52 <= q < 2 ^ 53).
  { pose proof (digits2_pos_bounds m) as Hb. rewrite Hd in Hb.
    replace (53 + Zpos k - 1) with (Zpos k + 52) in Hb by lia.
    replace (53 + Zpos k) with (Zpos k + 53) in Hb by lia.
    rewrite !Z.pow_add_r in Hb by lia.
    assert (0 < 2 ^ Zpos k) by (apply Z.pow_pos_nonneg; lia).
    unfold q. split.
    - apply Z.div_le_lower_bound; lia.
    - apply Z.div_lt_upper_bound; lia. }
  change (2 ^ 52) with 4503599627370496 in Hq.
  change (2 ^ 53) with 9007199254740992 in Hq.
  clearbody m1. destruct m1 as [|pm1|pm1]; try lia.
  destruct (Z.lt_ge_cases (Zpos pm1) 9007199254740992) as [Hlt | Hge].
  - assert (Hd1 : Zpos (digits2_pos pm1) = 53).
    { apply digits2_pos_unique. change (2 ^ (53 - 1)) with 4503599627370496.
      change (2 ^ 53) with 9007199254740992. lia. }
    rewrite (shr_fexp_keep pm1 (e + Zpos k) loc_Exact Hd1) by lia.
    cbn [shr_record_of_loc shr_m].
    unfold Binary64.emax, Binary64.prec.
    destruct (Z.leb_spec (e + Zpos k) (1024 - 53)); [|lia].
    exists pm1, (e + Zpos k). split; [reflexivity|]. left. lia.
  - assert (Epm : Zpos pm1 = Zpos 9007199254740992) by lia.
    injection Epm as ->.
    rewrite (shr_fexp_shift 9007199254740992 (e + Zpos k) loc_Exact 1) by (try reflexivity; lia).
    cbn [iter_pos shr_record_of_loc shr_1 shr_m].
    unfold Binary64.emax, Binary64.prec.
    destruct (Z.leb_spec (e + Zpos k + 1) (1024 - 53)); [|lia].
    exists 4503599627370496%positive, (e + Zpos k + 1). split; [reflexivity|].
    right. lia.
Qed.

Lemma of_int_value (p k : positive) :
  Zpos (digits2_pos p) + Zpos k = 53 ->
  Binary64.of_int (Zpos p) = S754_finite false (Pos.iter xO p k) (- Zpos k).
Proof.
  intros Hd. unfold Binary64.of_int, binary_normalize, binary_round, shl_align.
  rewrite fexp_normal by lia.
  replace (Zpos (digits2_pos p) + 0 - 53 - 0) with (Zneg k) by lia.
  replace (Zpos (digits2_pos p) + 0 - 53) with (- Zpos k) by lia.
  apply binary_round_aux_keep; [|lia].
  apply digits2_pos_unique. rewrite iter_xO_value.
  pose proof (digits2_pos_bounds p) as Hb.
  replace (Zpos (digits2_pos p)) with (53 - Zpos k) in Hb by lia.
  assert (Hk : Zpos k <= 52) by lia.
  assert (0 < 2 ^ Zpos k) by (apply Z.pow_pos_nonneg; lia).
  replace (2 ^ (53 - 1)) with (2 ^ (53 - Zpos k - 1) * 2 ^ Zpos k)
    by (rewrite <- Z.pow_add_r by lia; f_equal; lia).
  replace (2 ^ 53) with (2 ^ (53 - Zpos k) * 2 ^ Zpos k)
    by (rewrite <- Z.pow_add_r by lia; f_equal; lia).
  split.
  - apply Z.mul_le_mono_nonneg_r; lia.
  - apply Z.mul_lt_mono_pos_r; lia.
Qed.

(** The arithmetic behind the estimate.  [X] is the 53-bit mantissa of
    the word count [p], [W = 2^52 * A] the weight of one unit of the
    product, [K * T] a split of [W] into the part dropped by rounding
    and the part dropped by truncation, [m] the rounded mantissa. *)
Lemma truncated_product_is_floor (p A X K T q m : Z) :
  0 < p -> 32 <= A -> X = p * A -> X < 9007199254740992 ->
  0 < K <= 9007199254740992 -> 0 < T ->
  K * T = 4503599627370496 * A ->
  q = (X * 5854679515581645) / K ->
  q <= m <= q + 1 ->
  m / T = 13 * p / 10.
Proof.
  intros Hp HA HX HXb HK HT HKT Hq Hm.
  set (F := 13 * p / 10).
  assert (HF : 10 * F <= 13 * p < 10 * F + 10).
  { unfold F. pose proof (Z.div_mod (13 * p) 10 ltac:(lia)).
    pose proof (Z.mod_pos_bound (13 * p) 10 ltac:(lia)). lia. }
  set (P := X * 5854679515581645) in *.
  set (W := 4503599627370496 * A) in *.
  assert (HqK : q * K <= P < (q + 1) * K).
  { rewrite Hq. split.
    - rewrite Z.mul_comm. apply Z.mul_div_le. lia.
    - rewrite Z.mul_comm. replace (P / K + 1) with (Z.succ (P / K)) by lia.
      apply Z.mul_succ_div_gt. lia. }
  assert (HpW : p * W = 4503599627370496 * X) by (unfold W; rewrite HX; ring).
  assert (HFW : 10 * (F * W) <= 13 * (p * W)).
  { replace (10 * (F * W)) with ((10 * F) * W) by ring.
    replace (13 * (p * W)) with ((13 * p) * W) by ring.
    apply Z.mul_le_mono_nonneg_r; unfold W; lia. }
  assert (HFW' : 13 * (p * W) <= 10 * (F * W) + 9 * W).
  { replace (10 * (F * W) + 9 * W) with ((10 * F + 9) * W) by ring.
    replace (13 * (p * W)) with ((13 * p) * W) by ring.
    apply Z.mul_le_mono_nonneg_r; unfold W; lia. }
  assert (Hlow : F * T <= q).
  { rewrite Hq. apply Z.div_le_lower_bound; [lia|].
    replace (K * (F * T)) with (F * (K * T)) by ring. rewrite HKT. fold W.
    unfold P. lia. }
  assert (Hup : q + 1 < (F + 1) * T).
  { destruct (Z.lt_ge_cases (q + 1) ((F + 1) * T)) as [|Hge]; [assumption|].
    exfalso.
    assert (H1 : (F + 1) * T * K <= (q + 1) * K)
      by (apply Z.mul_le_mono_nonneg_r; lia).
    replace ((F + 1) * T * K) with (F * (K * T) + K * T) in H1 by ring.
    rewrite HKT in H1. fold W in H1.
    assert (H2 : 2 * X + 10 * K < W) by (unfold W; lia).
    unfold P in HqK. lia. }
  symmetry. apply (Z.div_unique m T F (m - F * T)); [|ring].
  left. lia.
Qed.

(** On every word count below 2^48 the binary64 computation
    [int(n * 1.3)] is the integer part of the exact product. *)
Lemma int_of_product (n : Z) :
  0 <= n < 2 ^ 48 ->
  Binary64.to_int (Binary64.mul (Binary64.of_int n) Binary64.lit_1_3) = 13 * n / 10.
Proof.
  intros [Hn0 Hn]. destruct n as [|p|p]; [reflexivity | | lia].
  pose proof (digits2_pos_bounds p) as Hd.
  set (d := Zpos (digits2_pos p)) in *.
  assert (Hd48 : 1 <= d <= 48).
  { split; [unfold d; lia|].
    assert (H : 2 ^ (d - 1) < 2 ^ 48) by lia.
    apply Z.pow_lt_mono_r_iff in H; lia. }
  set (k1 := Z.to_pos (53 - d)).
  assert (Hk1 : Zpos k1 = 53 - d) by (unfold k1; rewrite Z2Pos.id; lia).
  rewrite (of_int_value p k1) by (fold d; lia).
  unfold Binary64.mul, Binary64.lit_1_3, SFmul. cbn [xorb].
  pose proof (iter_xO_value p k1) as HX.
  set (mz := Pos.iter xO p k1) in *.
  set (A := 2 ^ Zpos k1) in *.
  assert (HA : 32 <= A).
  { unfold A. change 32 with (2 ^ 5). apply Z.pow_le_mono_r; lia. }
  assert (HXb : 4503599627370496 <= Zpos mz < 9007199254740992).
  { rewrite HX. unfold A. rewrite Hk1.
    change 4503599627370496 with (2 ^ 52). change 9007199254740992 with (2 ^ 53).
    replace (2 ^ 52) with (2 ^ (d - 1) * 2 ^ (53 - d))
      by (rewrite <- Z.pow_add_r by lia; f_equal; lia).
    replace (2 ^ 53) with (2 ^ d * 2 ^ (53 - d))
      by (rewrite <- Z.pow_add_r by lia; f_equal; lia).
    assert (0 < 2 ^ (53 - d)) by (apply Z.pow_pos_nonneg; lia).
    split; [apply Z.mul_le_mono_nonneg_r | apply Z.mul_lt_mono_pos_r]; lia. }
  pose proof (digits2_pos_bounds (mz * 5854679515581645)) as HD.
  set (D := Zpos (digits2_pos (mz * 5854679515581645))) in *.
  rewrite Pos2Z.inj_mul in HD.
  assert (HD' : 105 <= D <= 106).
  { assert (H104 : 2 ^ 104 <= Zpos mz * 5854679515581645)
      by (change (2 ^ 104) with (4503599627370496 * 4503599627370496); nia).
    assert (H106 : Zpos mz * 5854679515581645 < 2 ^ 106)
      by (change (2 ^ 106) with (9007199254740992 * 9007199254740992); nia).
    assert (Ha : 2 ^ 104 < 2 ^ D) by lia.
    assert (Hb : 2 ^ (D - 1) < 2 ^ 106) by lia.
    apply Z.pow_lt_mono_r_iff in Ha; [|lia|unfold D; lia].
    apply Z.pow_lt_mono_r_iff in Hb; lia. }
  set (k2 := Z.to_pos (D - 53)).
  assert (Hk2 : Zpos k2 = D - 53) by (unfold k2; rewrite Z2Pos.id; lia).
  destruct (binary_round_aux_shift (mz * 5854679515581645) (- Zpos k1 + -52) k2)
    as (m' & e' & Hres & Hcases); [fold D; lia | lia | lia |].
  rewrite Hres. rewrite Pos2Z.inj_mul in Hcases.
  set (K := 2 ^ Zpos k2) in *.
  assert (HK : 0 < K <= 9007199254740992).
  { unfold K. split; [apply Z.pow_pos_nonneg; lia|].
    change 9007199254740992 with (2 ^ 53). apply Z.pow_le_mono_r; lia. }
  set (q := Zpos mz * 5854679515581645 / K) in *.
  unfold Binary64.to_int.
  destruct Hcases as [(He & Hm) | (He & Hm)].
  - destruct e' as [|t|t]; try lia.
    rewrite Z.shiftr_div_pow2 by lia.
    assert (HT : 0 < 2 ^ Zpos t) by (apply Z.pow_pos_nonneg; lia).
    assert (HKT : K * 2 ^ Zpos t = 4503599627370496 * A).
    { unfold K, A. rewrite <- Z.pow_add_r by lia.
      change 4503599627370496 with (2 ^ 52). rewrite <- Z.pow_add_r by lia.
      f_equal. lia. }
    apply (truncated_product_is_floor (Zpos p) A (Zpos mz) K (2 ^ Zpos t) q (Zpos m'));
      solve [assumption | reflexivity | lia].
  - destruct e' as [|t|t]; try lia.
    rewrite Z.shiftr_div_pow2 by lia.
    assert (Hdiv : Zpos m' / 2 ^ Zpos t = (2 * Zpos m') / (2 * 2 ^ Zpos t)).
    { symmetry. apply Z.div_mul_cancel_l; [|lia].
      apply Z.pow_nonzero; lia. }
    rewrite Hdiv.
    assert (HT : 0 < 2 * 2 ^ Zpos t)
      by (assert (0 < 2 ^ Zpos t) by (apply Z.pow_pos_nonneg; lia); lia).
    assert (HKT : K * (2 * 2 ^ Zpos t) = 4503599627370496 * A).
    { replace (2 * 2 ^ Zpos t) with (2 ^ (1 + Zpos t))
        by (rewrite Z.pow_add_r by lia; reflexivity).
      unfold K, A. rewrite <- Z.pow_add_r by lia.
      change 4503599627370496 with (2 ^ 52). rewrite <- Z.pow_add_r by lia.
      f_equal. lia. }
    apply (truncated_product_is_floor (Zpos p) A (Zpos mz) K (2 * 2 ^ Zpos t) q (2 * Zpos m'));
      solve [assumption | reflexivity | lia].
Qed.

End Binary64Facts.

(** C4 (as amended). Token estimate: for every text of fewer than 2^48
    words the estimate is the product of the word count by 1.3 truncated
    toward zero, that is the integer part of [13 * words / 10]; a product
    with fractional part one half or more is not rounded up. *)
Theorem estimate_tokens_truncates (t : string) :
  word_count t < 2 ^ 48 ->
  _estimate_tokens t = 13 * word_count t / 10
  /\ 10 * _estimate_tokens t <= 13 * word_count t < 10 * _estimate_tokens t + 10.
Proof.
  intros Hw.
  assert (E : _estimate_tokens t = 13 * word_count t / 10).
  { unfold _estimate_tokens. fold (word_count t).
    apply int_of_product. unfold word_count in *. lia. }
  split; [exact E|]. rewrite E.
  pose proof (Z.div_mod (13 * word_count t) 10 ltac:(lia)).
  pose proof (Z.mod_pos_bound (13 * word_count t) 10 ltac:(lia)). lia.
Qed.

(** C4, witness: a text of three words. *)
Lemma estimate_tokens_truncates_witness :
  word_count "one two three" < 2 ^ 48
  /\ _estimate_tokens "one two three" = 13 * word_count "one two three" / 10
  /\ 10 * _estimate_tokens "one two three" <= 13 * word_count "one two three"
     < 10 * _estimate_tokens "one two three" + 10.
Proof.
  assert (H : word_count "one two three" < 2 ^ 48) by (vm_compute; reflexivity).
  split; [exact H|]. exact (estimate_tokens_truncates "one two three" H).
Defined.

(** C4, counterexample: three words give the product 3.9, which the code
    truncates to 3 and [round] would take to 4. *)
Lemma estimate_tokens_round_counterexample :
  word_count "one two three" = 3
  /\ _estimate_tokens "one two three" = 3
  /\ spec_estimated_tokens "one two three" = 4.
Proof. repeat split. Qed.

(* ------------------------------------------------------------------ *)
(** * Further properties of the chunker *)

Section EstimateSign.

Lemma binary_round_aux_cases (sx : bool) (m e : Z) (l : location) :
  let r := binary_round_aux Binary64.prec Binary64.emax sx m e l in
  r = S754_zero sx \/ (exists m' e', r = S754_finite sx m' e')
  \/ r = S754_infinity sx \/ r = S754_nan.
Proof.
  unfold binary_round_aux.
  destruct (shr_fexp Binary64.prec Binary64.emax m e l) as [mrs' e'].
  destruct (shr_fexp Binary64.prec Binary64.emax _ e' loc_Exact) as [mrs'' e''].
  destruct (shr_m mrs'') as [|p|p]; auto.
  destruct (e'' <=? Binary64.emax - Binary64.prec); eauto.
Qed.

Lemma to_int_finite_nonneg (m : positive) (e : Z) :
  0 <= Binary64.to_int (S754_finite false m e).
Proof.
  unfold Binary64.to_int. destruct e as [|p|p].
  - lia.
  - apply Z.shiftl_nonneg. lia.
  - apply Z.shiftr_nonneg. lia.
Qed.

Lemma to_int_round_nonneg (m e : Z) (l : location) :
  0 <= Binary64.to_int (binary_round_aux Binary64.prec Binary64.emax false m e l).
Proof.
  destruct (binary_round_aux_cases false m e l) as [-> | [(m' & e' & ->) | [-> | ->]]];
    try (simpl; lia).
  apply to_int_finite_nonneg.
Qed.

(** The estimate is never negative, whatever the length of the text. *)
Lemma estimate_tokens_nonneg (t : string) : 0 <= _estimate_tokens t.
Proof.
  unfold _estimate_tokens.
  destruct (Z.of_nat (List.length (PyStr.split t))) as [|p|p] eqn:E; [simpl; lia | | lia].
  unfold Binary64.of_int, binary_normalize, binary_round.
  destruct (shl_align p 0 _) as [mz ez].
  destruct (binary_round_aux_cases false (Zpos mz) ez loc_Exact)
    as [-> | [(m' & e' & ->) | [-> | ->]]]; try (simpl; lia).
  unfold Binary64.mul, Binary64.lit_1_3, SFmul. cbn [xorb].
  apply to_int_round_nonneg.
Qed.

Lemma tokens_of_nonneg (segs : list Segment) : 0 <= tokens_of segs.
Proof.
  induction segs as [|s segs IH]; simpl; [lia|].
  pose proof (estimate_tokens_nonneg (seg_text s)). lia.
Qed.

Lemma tokens_of_app (a b : list Segment) :
  tokens_of (a ++ b) = tokens_of a + tokens_of b.
Proof. induction a as [|s a IH]; simpl; [reflexivity|]. rewrite IH. lia. Qed.

End EstimateSign.

Section AdjacentFacts.

Context {A : Type} (R : A -> A -> Prop).

Lemma adjacent_snoc (l : list A) (a b : A) :
  adjacent R (l ++ [a]) -> R a b -> adjacent R (l ++ [a; b]).
Proof.
  induction l as [|x l IH]; intros H Hab; simpl in *.
  - auto.
  - destruct l as [|y l]; simpl in *.
    + destruct H as [Hxa _]. auto.
    + destruct H as [Hxy H]. split; [exact Hxy|]. now apply IH.
Qed.

Lemma adjacent_change_last (l : list A) (a a' : A) :
  adjacent R (l ++ [a]) -> (forall z, R z a -> R z a') -> adjacent R (l ++ [a']).
Proof.
  induction l as [|x l IH]; intros H Hz; simpl in *.
  - exact I.
  - destruct l as [|y l]; simpl in *.
    + destruct H as [Hxa _]. auto.
    + destruct H as [Hxy H]. split; [exact Hxy|]. now apply IH.
Qed.

Lemma adjacent_elim (pre post : list A) (a b : A) :
  adjacent R (pre ++ a :: b :: post) -> R a b.
Proof.
  induction pre as [|x pre IH]; simpl.
  - now intros [H _].
  - destruct (pre ++ a :: b :: post)%list eqn:E.
    + destruct pre; discriminate.
    + intros [_ H]. now apply IH.
Qed.

End AdjacentFacts.

Section ChunkerInvariants.

Variable g : NoteGenerator.

Lemma chunker_step_bounded (st : ChunkerState) (segment : Segment) :
  chunker_bounded g st -> chunker_bounded g (chunker_step g st segment).
Proof.
  intros (Hcs & Hcount & Hcur). unfold chunker_bounded, chunker_step, split_guard.
  destruct (current_chunk_segments st) as [|s0 cur] eqn:E.
  - rewrite andb_false_r. cbn. rewrite E. cbn in *.
    split; [exact Hcs|]. split; [lia | right; lia].
  - rewrite andb_true_r.
    destruct (Z.gtb_spec (current_token_count st + _estimate_tokens (seg_text segment))
                (chunk_size g)) as [Hgt | Hle]; cbn.
    + split; [|split; [lia | right; lia]].
      apply Forall_app. split; [exact Hcs|].
      constructor; [|constructor]. rewrite E. unfold bounded_chunk. cbn [segments _create_chunk_transcript].
      destruct Hcur as [Hb | Hl]; [now left | right].
      destruct cur; [now exists s0 | simpl in Hl; lia].
    + rewrite E. split; [exact Hcs|]. split.
      * rewrite tokens_of_snoc. lia.
      * left. rewrite tokens_of_snoc. lia.
Qed.

Lemma chunker_loop_bounded (segs : list Segment) : chunker_bounded g (chunker_loop g segs).
Proof.
  induction segs as [|s segs IH] using rev_ind.
  - split; [constructor|]. split; [reflexivity | right; cbn; lia].
  - rewrite chunker_loop_snoc. now apply chunker_step_bounded.
Qed.

Lemma chunk_transcript_bounded (t : Transcript) :
  segments t <> [] -> Forall (bounded_chunk g) (_chunk_transcript g t).
Proof.
  intros Ht. rewrite (chunk_transcript_nonempty g t Ht).
  destruct (chunker_loop_bounded (segments t)) as (Hcs & _ & Hcur).
  apply Forall_app. split; [exact Hcs|]. constructor; [|constructor].
  unfold bounded_chunk. cbn [segments _create_chunk_transcript].
  destruct Hcur as [Hb | Hl]; [now left | right].
  pose proof (chunker_loop_current g (segments t) Ht) as Hne.
  destruct (current_chunk_segments (chunker_loop g (segments t))) as [|s0 [|s1 cur]];
    [congruence | now exists s0 | simpl in Hl; lia].
Qed.

Lemma chunker_step_greedy (st : ChunkerState) (segment : Segment) :
  chunker_greedy g st -> chunker_greedy g (chunker_step g st segment).
Proof.
  intros (Hcount & Hadj). unfold chunker_greedy, chunker_step, split_guard.
  destruct (current_chunk_segments st) as [|s0 cur] eqn:E.
  - rewrite andb_false_r. cbn in *. rewrite E, Hadj. cbn. split; [lia | exact I].
  - rewrite andb_true_r.
    destruct (Z.gtb_spec (current_token_count st + _estimate_tokens (seg_text segment))
                (chunk_size g)) as [Hgt | Hle]; cbn.
    + split; [lia|]. rewrite E, <- app_assoc. cbn.
      apply adjacent_snoc; [exact Hadj|].
      unfold closed_by_overflow, first_tokens.
      cbn [segments _create_chunk_transcript]. lia.
    + rewrite E. split; [rewrite tokens_of_snoc; lia|]. cbn.
      apply (adjacent_change_last _ _ (_create_chunk_transcript (s0 :: cur))); [exact Hadj|].
      intros z Hz. unfold closed_by_overflow, first_tokens in *.
      cbn [segments _create_chunk_transcript] in *. exact Hz.
Qed.

Lemma chunker_loop_greedy (segs : list Segment) : chunker_greedy g (chunker_loop g segs).
Proof.
  induction segs as [|s segs IH] using rev_ind.
  - split; reflexivity.
  - rewrite chunker_loop_snoc. now apply chunker_step_greedy.
Qed.

Lemma chunk_transcript_greedy (t : Transcript) :
  segments t <> [] -> adjacent (closed_by_overflow g) (_chunk_transcript g t).
Proof.
  intros Ht. rewrite (chunk_transcript_nonempty g t Ht).
  destruct (chunker_loop_greedy (segments t)) as (_ & Hadj).
  pose proof (chunker_loop_current g (segments t) Ht) as Hne.
  destruct (current_chunk_segments (chunker_loop g (segments t))); [congruence | exact Hadj].
Qed.

(** When everything that is left fits, the loop only appends. *)
Lemma chunker_fold_fits (segs : list Segment) :
  forall st,
  current_token_count st + tokens_of segs <= chunk_size g ->
  fold_left (chunker_step g) segs st
  = {| chunks := chunks st;
       current_chunk_segments := (current_chunk_segments st ++ segs)%list;
       current_token_count := current_token_count st + tokens_of segs |}.
Proof.
  induction segs as [|s segs IH]; intros st H; simpl in *.
  - destruct st. cbn. now rewrite app_nil_r, Z.add_0_r.
  - pose proof (tokens_of_nonneg segs) as Hn.
    assert (Hg : split_guard g st s = false).
    { unfold split_guard. apply andb_false_iff. left.
      apply not_true_is_false. rewrite Z.gtb_gt. fold tokens_of in H. lia. }
    rewrite IH; unfold chunker_step; rewrite Hg; cbn; fold tokens_of in *.
    + rewrite <- app_assoc. f_equal. lia.
    + lia.
Qed.

(** When every segment that is left overflows on its own, the loop closes
    a chunk at each step. *)
Lemma chunker_fold_oversized (segs : list Segment) :
  forall st s0,
  current_chunk_segments st = [s0] ->
  current_token_count st = _estimate_tokens (seg_text s0) ->
  (forall s, In s segs -> _estimate_tokens (seg_text s) > chunk_size g) ->
  let st' := fold_left (chunker_step g) segs st in
  (chunks st' ++ [_create_chunk_transcript (current_chunk_segments st')])%list
  = (chunks st ++ map single_chunk (s0 :: segs))%list.
Proof.
  induction segs as [|s segs IH]; intros st s0 Hcur Hcount Hall; simpl.
  - now rewrite Hcur.
  - pose proof (estimate_tokens_nonneg (seg_text s0)) as Hn.
    assert (Hs : _estimate_tokens (seg_text s) > chunk_size g) by (apply Hall; now left).
    assert (Hg : split_guard g st s = true).
    { unfold split_guard. rewrite Hcur, andb_true_r. rewrite Z.gtb_gt. lia. }
    rewrite (IH (chunker_step g st s) s).
    + unfold chunker_step. rewrite Hg. cbn. rewrite Hcur, <- app_assoc. reflexivity.
    + unfold chunker_step. now rewrite Hg.
    + unfold chunker_step. rewrite Hg. cbn. lia.
    + intros x Hx. apply Hall. now right.
Qed.

Lemma chunk_transcript_fits (t : Transcript) :
  segments t <> [] ->
  tokens_of (segments t) <= chunk_size g ->
  _chunk_transcript g t = [_create_chunk_transcript (segments t)].
Proof.
  intros Ht Hfit. rewrite (chunk_transcript_nonempty g t Ht).
  unfold chunker_loop. rewrite chunker_fold_fits by (cbn; lia). reflexivity.
Qed.

Lemma chunk_transcript_single (t : Transcript) (s : Segment) :
  segments t = [s] -> _chunk_transcript g t = [single_chunk s].
Proof.
  intros E. unfold _chunk_transcript. rewrite E.
  unfold chunker_loop, chunker_step, split_guard. simpl.
  now rewrite andb_false_r.
Qed.

Lemma chunk_transcript_oversized (t : Transcript) :
  segments t <> [] ->
  (forall s, In s (segments t) -> _estimate_tokens (seg_text s) > chunk_size g) ->
  _chunk_transcript g t = map single_chunk (segments t).
Proof.
  intros Ht Hall. rewrite (chunk_transcript_nonempty g t Ht).
  destruct (segments t) as [|s0 segs]; [congruence|].
  assert (Hinit : chunker_step g chunker_init s0
                  = {| chunks := []; current_chunk_segments := [s0];
                       current_token_count := 0 + _estimate_tokens (seg_text s0) |}).
  { unfold chunker_step, split_guard. cbn [chunker_init current_chunk_segments].
    now rewrite andb_false_r. }
  unfold chunker_loop. cbn [fold_left]. rewrite Hinit.
  rewrite (chunker_fold_oversized segs _ s0).
  - reflexivity.
  - reflexivity.
  - cbn. lia.
  - intros s Hs. apply Hall. now right.
Qed.

Lemma chunk_transcript_segments (t : Transcript) :
  segments t <> [] -> all_segments (_chunk_transcript g t) = segments t.
Proof.
  intros Ht. rewrite (chunk_transcript_nonempty g t Ht), all_segments_snoc.
  cbn [segments _create_chunk_transcript].
  apply (chunker_fold_segments g (segments t) chunker_init).
Qed.

Lemma all_segments_length (cs : list Transcript) :
  Forall well_formed_chunk cs -> (List.length cs <= List.length (all_segments cs))%nat.
Proof.
  induction 1 as [|c cs [Hne _] _ IH]; simpl; [lia|].
  rewrite length_app. destruct (segments c); [congruence | simpl; lia].
Qed.

End ChunkerInvariants.

(** X1. Token bound: every chunk built from a transcript that has segments
    is within the budget, unless it holds a single segment whose own
    estimate is above the budget. *)
Theorem chunk_within_budget_or_single (g : NoteGenerator) (t c : Transcript) :
  segments t <> [] ->
  In c (_chunk_transcript g t) ->
  tokens_of (segments c) <= chunk_size g
  \/ exists s, segments c = [s] /\ _estimate_tokens (seg_text s) > chunk_size g.
Proof.
  intros Ht Hin.
  pose proof (chunk_transcript_bounded g t Ht) as Hb.
  rewrite Forall_forall in Hb. specialize (Hb c Hin).
  destruct (Z.le_gt_cases (tokens_of (segments c)) (chunk_size g)) as [Hle | Hgt];
    [now left | right].
  destruct Hb as [Hle | (s & Hs)]; [lia|].
  exists s. split; [exact Hs|]. rewrite Hs in Hgt. cbn in Hgt. lia.
Qed.

(** X1, witness: the second chunk of the sample transcript. *)
Lemma chunk_within_budget_or_single_witness :
  segments sample_transcript <> []
  /\ In sample_chunk_2 (_chunk_transcript sample_generator sample_transcript)
  /\ (tokens_of (segments sample_chunk_2) <= chunk_size sample_generator
      \/ exists s, segments sample_chunk_2 = [s]
                   /\ _estimate_tokens (seg_text s) > chunk_size sample_generator).
Proof.
  assert (H1 : segments sample_transcript <> []) by (vm_compute; discriminate).
  assert (H2 : In sample_chunk_2 (_chunk_transcript sample_generator sample_transcript))
    by (vm_compute; right; left; reflexivity).
  split; [exact H1|]. split; [exact H2|].
  exact (chunk_within_budget_or_single sample_generator sample_transcript sample_chunk_2 H1 H2).
Defined.

(** X2. Forced boundaries: wherever the chunker cuts, the segment that
    starts the next chunk did not fit: the estimate of the earlier chunk
    plus the estimate of that segment is strictly above the budget. *)
Theorem chunk_boundaries_are_forced (g : NoteGenerator) (t : Transcript)
        (pre post : list Transcript) (c1 c2 : Transcript) :
  _chunk_transcript g t = (pre ++ c1 :: c2 :: post)%list ->
  tokens_of (segments c1) + first_tokens c2 > chunk_size g.
Proof.
  intros E.
  assert (Ht : segments t <> []).
  { intros Hn. unfold _chunk_transcript in E. rewrite Hn in E.
    apply (f_equal (@List.length _)) in E. rewrite length_app in E. simpl in E. lia. }
  pose proof (chunk_transcript_greedy g t Ht) as Hadj. rewrite E in Hadj.
  exact (adjacent_elim _ pre post c1 c2 Hadj).
Qed.

(** X2, witness: the cut of the sample transcript after its sixth
    segment. *)
Lemma chunk_boundaries_are_forced_witness :
  _chunk_transcript sample_generator sample_transcript
  = ([] ++ sample_chunk_1 :: sample_chunk_2 :: [])%list
  /\ tokens_of (segments sample_chunk_1) + first_tokens sample_chunk_2
     > chunk_size sample_generator.
Proof.
  assert (H : _chunk_transcript sample_generator sample_transcript
              = ([] ++ sample_chunk_1 :: sample_chunk_2 :: [])%list)
    by (vm_compute; reflexivity).
  split; [exact H|].
  exact (chunk_boundaries_are_forced sample_generator sample_transcript [] []
           sample_chunk_1 sample_chunk_2 H).
Defined.

(** X3. No split: a transcript that has segments comes back as one chunk
    exactly when the estimates of its segments add up to at most the
    budget or it has a single segment; that chunk then holds all the
    segments. *)
Theorem single_chunk_iff_fits (g : NoteGenerator) (t : Transcript) :
  segments t <> [] ->
  (List.length (_chunk_transcript g t) = 1%nat
   <-> (tokens_of (segments t) <= chunk_size g \/ exists s, segments t = [s]))
  /\ (List.length (_chunk_transcript g t) = 1%nat ->
      _chunk_transcript g t = [_create_chunk_transcript (segments t)]).
Proof.
  intros Ht.
  assert (Hone : List.length (_chunk_transcript g t) = 1%nat ->
                 _chunk_transcript g t = [_create_chunk_transcript (segments t)]
                 /\ bounded_chunk g (_create_chunk_transcript (segments t))).
  { intros Hl.
    pose proof (chunk_transcript_segments g t Ht) as Hseg.
    pose proof (chunk_transcript_well_formed g t Ht) as Hwf.
    pose proof (chunk_transcript_bounded g t Ht) as Hb.
    destruct (_chunk_transcript g t) as [|c [|c' cs]]; try discriminate.
    inversion Hwf as [|? ? [_ Hc] _]. inversion Hb as [|? ? Hbc _]. subst.
    cbn in Hseg. rewrite app_nil_r in Hseg. rewrite Hseg in Hc. rewrite Hc at 1.
    split; [reflexivity|]. rewrite <- Hc. exact Hbc. }
  split; [split|].
  - intros Hl. destruct (Hone Hl) as [_ Hb]. exact Hb.
  - intros [Hfit | (s & Hs)].
    + now rewrite (chunk_transcript_fits g t Ht Hfit).
    + now rewrite (chunk_transcript_single g t s Hs).
  - intros Hl. now destruct (Hone Hl).
Qed.

(** X3, witness: the sample transcript against a budget of 52 tokens. *)
Lemma single_chunk_iff_fits_witness :
  segments sample_transcript <> []
  /\ (List.length (_chunk_transcript budget_52 sample_transcript) = 1%nat
      <-> (tokens_of (segments sample_transcript) <= chunk_size budget_52
           \/ exists s, segments sample_transcript = [s]))
  /\ (List.length (_chunk_transcript budget_52 sample_transcript) = 1%nat ->
      _chunk_transcript budget_52 sample_transcript
      = [_create_chunk_transcript (segments sample_transcript)]).
Proof.
  assert (H1 : segments sample_transcript <> []) by (vm_compute; discriminate).
  split; [exact H1|].
  exact (single_chunk_iff_fits budget_52 sample_transcript H1).
Defined.

(** X4. Oversized segments: when every segment's own estimate is above the
    budget, each segment becomes a chunk of its own, in order. *)
Theorem oversized_segments_one_chunk_each (g : NoteGenerator) (t : Transcript) :
  segments t <> [] ->
  (forall s, In s (segments t) -> _estimate_tokens (seg_text s) > chunk_size g) ->
  _chunk_transcript g t = map single_chunk (segments t).
Proof. intros Ht Hall. now apply chunk_transcript_oversized. Qed.

(** X4, witness: the sample transcript against a budget of 4 tokens. *)
Lemma oversized_segments_one_chunk_each_witness :
  segments sample_transcript <> []
  /\ (forall s, In s (segments sample_transcript) ->
                _estimate_tokens (seg_text s) > chunk_size budget_4)
  /\ _chunk_transcript budget_4 sample_transcript
     = map single_chunk (segments sample_transcript).
Proof.
  assert (H1 : segments sample_transcript <> []) by (vm_compute; discriminate).
  assert (H2 : forall s, In s (segments sample_transcript) ->
                         _estimate_tokens (seg_text s) > chunk_size budget_4).
  { intros s Hs. unfold sample_transcript, sample_segments in Hs. cbn [segments] in Hs.
    apply in_map_iff in Hs as (i & <- & _). vm_compute. reflexivity. }
  split; [exact H1|]. split; [exact H2|].
  exact (oversized_segments_one_chunk_each budget_4 sample_transcript H1 H2).
Defined.

(** X5. Chunk count: a transcript that has segments never yields more
    chunks than it has segments. *)
Theorem chunk_count_at_most_segments (g : NoteGenerator) (t : Transcript) :
  segments t <> [] ->
  (List.length (_chunk_transcript g t) <= List.length (segments t))%nat.
Proof.
  intros Ht.
  pose proof (all_segments_length (_chunk_transcript g t)
                (chunk_transcript_well_formed g t Ht)) as H.
  now rewrite (chunk_transcript_segments g t Ht) in H.
Qed.

(** X5, witness: the sample transcript. *)
Lemma chunk_count_at_most_segments_witness :
  segments sample_transcript <> []
  /\ (List.length (_chunk_transcript sample_generator sample_transcript)
      <= List.length (segments sample_transcript))%nat.
Proof.
  assert (H1 : segments sample_transcript <> []) by (vm_compute; discriminate).
  split; [exact H1|].
  exact (chunk_count_at_most_segments sample_generator sample_transcript H1).
Defined.

(** X6. Chunking a chunk: every chunk built from a transcript that has
    segments is left whole when it is chunked again with the same
    budget. *)
Theorem rechunking_is_identity (g : NoteGenerator) (t c : Transcript) :
  segments t <> [] ->
  In c (_chunk_transcript g t) ->
  _chunk_transcript g c = [c].
Proof.
  intros Ht Hin.
  pose proof (chunk_transcript_bounded g t Ht) as Hb.
  pose proof (chunk_transcript_well_formed g t Ht) as Hwf.
  rewrite Forall_forall in Hb, Hwf.
  destruct (Hwf c Hin) as [Hne Hc]. destruct (Hb c Hin) as [Hfit | (s & Hs)].
  - rewrite (chunk_transcript_fits g c Hne Hfit). now rewrite <- Hc.
  - rewrite (chunk_transcript_single g c s Hs). unfold single_chunk.
    now rewrite <- Hs, <- Hc.
Qed.

(** X6, witness: the first chunk of the sample transcript. *)
Lemma rechunking_is_identity_witness :
  segments sample_transcript <> []
  /\ In sample_chunk_1 (_chunk_transcript sample_generator sample_transcript)
  /\ _chunk_transcript sample_generator sample_chunk_1 = [sample_chunk_1].
Proof.
  assert (H1 : segments sample_transcript <> []) by (vm_compute; discriminate).
  assert (H2 : In sample_chunk_1 (_chunk_transcript sample_generator sample_transcript))
    by (vm_compute; left; reflexivity).
  split; [exact H1|]. split; [exact H2|].
  exact (rechunking_is_identity sample_generator sample_transcript sample_chunk_1 H1 H2).
Defined.

(* ------------------------------------------------------------------ *)
(** * Words, estimates and the strategy decision *)

Section WordFacts.

(** Splitting sees a space between two texts as a word boundary. *)
Lemma split_aux_space (a : string) :
  forall (cur : list ascii) (b : string),
  PyStr.split_aux cur (a ++ String " " b) = (PyStr.split_aux cur a ++ PyStr.split b)%list.
Proof.
  induction a as [|c a IH]; intros cur b.
  - cbn. destruct cur; reflexivity.
  - cbn [append PyStr.split_aux]. destruct (PyStr.is_space c).
    + destruct cur; rewrite IH; reflexivity.
    + apply IH.
Qed.

Lemma join_cons (sep p q : string) (parts : list string) :
  PyStr.join sep (p :: q :: parts) = p ++ sep ++ PyStr.join sep (q :: parts).
Proof. reflexivity. Qed.

Lemma split_join (parts : list string) :
  PyStr.split (PyStr.join " " parts) = flat_map PyStr.split parts.
Proof.
  induction parts as [|p parts IH]; [reflexivity|].
  destruct parts as [|q parts].
  - cbn. now rewrite app_nil_r.
  - rewrite join_cons.
    change (flat_map PyStr.split (p :: q :: parts))
      with (PyStr.split p ++ flat_map PyStr.split (q :: parts))%list.
    rewrite <- IH. unfold PyStr.split at 1. apply split_aux_space.
Qed.

Lemma word_count_join_cons (p : string) (parts : list string) :
  word_count (PyStr.join " " (p :: parts)) = word_count p + word_count (PyStr.join " " parts).
Proof.
  unfold word_count. rewrite !split_join. cbn [flat_map].
  rewrite length_app. lia.
Qed.

Lemma word_count_nonneg (t : string) : 0 <= word_count t.
Proof. unfold word_count. lia. Qed.

Lemma estimate_of_word_count (t : string) :
  word_count t < 2 ^ 48 -> _estimate_tokens t = 13 * word_count t / 10.
Proof.
  intros H. unfold _estimate_tokens. fold (word_count t).
  apply int_of_product. pose proof (word_count_nonneg t). lia.
Qed.

Lemma floor_sum (a b : Z) : 13 * a / 10 + 13 * b / 10 <= 13 * (a + b) / 10.
Proof.
  apply Z.div_le_lower_bound; [lia|].
  pose proof (Z.mul_div_le (13 * a) 10 ltac:(lia)).
  pose proof (Z.mul_div_le (13 * b) 10 ltac:(lia)). lia.
Qed.

(** The estimates of the segments add up to at most the estimate of
    their joined text. *)
Lemma tokens_of_joined (segs : list Segment) :
  word_count (PyStr.join " " (map seg_text segs)) < 2 ^ 48 ->
  tokens_of segs <= _estimate_tokens (PyStr.join " " (map seg_text segs)).
Proof.
  intros Hw. rewrite (estimate_of_word_count _ Hw). revert Hw.
  induction segs as [|s segs IH]; intros Hw.
  - cbn. lia.
  - cbn [map] in *. rewrite word_count_join_cons in *.
    pose proof (word_count_nonneg (seg_text s)).
    pose proof (word_count_nonneg (PyStr.join " " (map seg_text segs))).
    cbn [tokens_of fold_right]. fold (tokens_of segs).
    rewrite (estimate_of_word_count (seg_text s)) by lia.
    specialize (IH ltac:(lia)).
    pose proof (floor_sum (word_count (seg_text s))
                  (word_count (PyStr.join " " (map seg_text segs)))). lia.
Qed.

End WordFacts.

(** X7. Estimates add up: in a transcript whose text is the space-joined
    texts of its segments (fewer than 2^48 words), the estimates of the
    segments sum to at most the estimate of the whole text. *)
Theorem segment_estimates_within_text_estimate (t : Transcript) :
  text_is_joined_segments t ->
  word_count (text_or_empty t) < 2 ^ 48 ->
  tokens_of (segments t) <= _estimate_tokens (text_or_empty t).
Proof.
  unfold text_is_joined_segments, text_or_empty. intros -> Hw. cbn in *.
  now apply tokens_of_joined.
Qed.

(** X7, witness: the sample transcript (50 against 52 tokens). *)
Lemma segment_estimates_within_text_estimate_witness :
  text_is_joined_segments sample_transcript
  /\ word_count (text_or_empty sample_transcript) < 2 ^ 48
  /\ tokens_of (segments sample_transcript) <= _estimate_tokens (text_or_empty sample_transcript).
Proof.
  assert (H1 : text_is_joined_segments sample_transcript) by reflexivity.
  assert (H2 : word_count (text_or_empty sample_transcript) < 2 ^ 48)
    by (vm_compute; reflexivity).
  split; [exact H1|]. split; [exact H2|].
  exact (segment_estimates_within_text_estimate sample_transcript H1 H2).
Defined.

(** X8. Single pass means no split: when the text of such a transcript is
    estimated within the budget, so that [generate_notes] goes the
    single-pass way, the chunker would return all its segments as one
    chunk. *)
Theorem within_budget_text_is_one_chunk (g : NoteGenerator) (t : Transcript) :
  segments t <> [] ->
  text_is_joined_segments t ->
  word_count (text_or_empty t) < 2 ^ 48 ->
  _estimate_tokens (text_or_empty t) <= chunk_size g ->
  _chunk_transcript g t = [_create_chunk_transcript (segments t)].
Proof.
  intros Ht Hj Hw Hle. apply (chunk_transcript_fits g t Ht).
  unfold text_is_joined_segments, text_or_empty in *. rewrite Hj in *. cbn in *.
  pose proof (tokens_of_joined (segments t) Hw). lia.
Qed.

(** X8, witness: the sample transcript against a budget of 52 tokens. *)
Lemma within_budget_text_is_one_chunk_witness :
  segments sample_transcript <> []
  /\ text_is_joined_segments sample_transcript
  /\ word_count (text_or_empty sample_transcript) < 2 ^ 48
  /\ _estimate_tokens (text_or_empty sample_transcript) <= chunk_size budget_52
  /\ _chunk_transcript budget_52 sample_transcript
     = [_create_chunk_transcript (segments sample_transcript)].
Proof.
  assert (H0 : segments sample_transcript <> []) by (vm_compute; discriminate).
  assert (H1 : text_is_joined_segments sample_transcript) by reflexivity.
  assert (H2 : word_count (text_or_empty sample_transcript) < 2 ^ 48)
    by (vm_compute; reflexivity).
  assert (H3 : _estimate_tokens (text_or_empty sample_transcript) <= chunk_size budget_52)
    by (vm_compute; discriminate).
  split; [exact H0|]. split; [exact H1|]. split; [exact H2|]. split; [exact H3|].
  exact (within_budget_text_is_one_chunk budget_52 sample_transcript H0 H1 H2 H3).
Defined.

(** X9. No words, no chunking: a transcript whose ['text'] key is missing,
    empty or blank is estimated at 0 tokens, so with a budget that is not
    negative [generate_notes] goes the single-pass way once the model
    check has passed, whatever the transcript's segments hold. *)
Theorem wordless_text_is_single_pass (client : Backend) (self : NoteGenerator)
        (t : Transcript) (stream_output : bool) (tr : Trace) :
  fst (check_model_available client self tr) = inr true ->
  0 <= chunk_size self ->
  word_count (text_or_empty t) = 0 ->
  _estimate_tokens (text_or_empty t) = 0
  /\ generate_notes client self t stream_output tr
     = _generate_single client self t stream_output
         (snd (check_model_available client self tr)).
Proof.
  intros Hcheck Hb Hw.
  assert (E : _estimate_tokens (text_or_empty t) = 0).
  { rewrite estimate_of_word_count by (rewrite Hw; reflexivity). now rewrite Hw. }
  split; [exact E|].
  unfold generate_notes, bind.
  destruct (check_model_available client self tr) as [r tr1]. cbn in Hcheck |- *.
  subst r. cbn. fold (text_or_empty t). rewrite E.
  destruct (Z.gtb_spec 0 (chunk_size self)); [lia | reflexivity].
Qed.

(** X9, witness: the sample transcript without its text. *)
Lemma wordless_text_is_single_pass_witness :
  fst (check_model_available sample_backend sample_generator []) = inr true
  /\ 0 <= chunk_size sample_generator
  /\ word_count (text_or_empty textless_transcript) = 0
  /\ _estimate_tokens (text_or_empty textless_transcript) = 0
  /\ generate_notes sample_backend sample_generator textless_transcript false []
     = _generate_single sample_backend sample_generator textless_transcript false
         (snd (check_model_available sample_backend sample_generator [])).
Proof.
  assert (H1 : fst (check_model_available sample_backend sample_generator []) = inr true)
    by reflexivity.
  assert (H2 : 0 <= chunk_size sample_generator) by (vm_compute; discriminate).
  assert (H3 : word_count (text_or_empty textless_transcript) = 0) by reflexivity.
  split; [exact H1|]. split; [exact H2|]. split; [exact H3|].
  exact (wordless_text_is_single_pass sample_backend sample_generator textless_transcript
           false [] H1 H2 H3).
Defined.

(* ------------------------------------------------------------------ *)
(** * Chunks and the whole transcript *)

Section JoinFacts.

Variable sep : string.

Lemma join_app (a b : list string) :
  a <> [] -> b <> [] ->
  PyStr.join sep (a ++ b) = PyStr.join sep a ++ sep ++ PyStr.join sep b.
Proof.
  intros Ha Hb. induction a as [|x a IH]; [congruence|].
  destruct a as [|y a].
  - destruct b; [congruence | reflexivity].
  - change ((x :: y :: a) ++ b)%list with (x :: y :: (a ++ b))%list.
    rewrite !join_cons. change (y :: (a ++ b))%list with ((y :: a) ++ b)%list.
    rewrite IH by discriminate. now rewrite !append_assoc.
Qed.

(** Joining the joined groups gives the join of all the parts. *)
Lemma join_groups {A : Type} (f : A -> list string) (cs : list A) :
  (forall c, In c cs -> f c <> []) ->
  PyStr.join sep (map (fun c => PyStr.join sep (f c)) cs) = PyStr.join sep (flat_map f cs).
Proof.
  induction cs as [|c cs IH]; intros Hne; [reflexivity|].
  destruct cs as [|c' cs].
  - cbn. now rewrite app_nil_r.
  - change (map (fun c0 => PyStr.join sep (f c0)) (c :: c' :: cs))
      with (PyStr.join sep (f c) :: PyStr.join sep (f c') :: map (fun c0 => PyStr.join sep (f c0)) cs).
    rewrite join_cons.
    change (PyStr.join sep (f c') :: map (fun c0 => PyStr.join sep (f c0)) cs)
      with (map (fun c0 => PyStr.join sep (f c0)) (c' :: cs)).
    rewrite IH by (intros x Hx; apply Hne; now right).
    change (flat_map f (c :: c' :: cs)) with (f c ++ flat_map f (c' :: cs))%list.
    rewrite join_app; [reflexivity | apply Hne; now left |].
    cbn [flat_map]. intros H. apply app_eq_nil in H as [H _].
    revert H. apply Hne. right. now left.
Qed.

End JoinFacts.

Section ChunkViews.

Variable g : NoteGenerator.

Lemma map_all_segments {B : Type} (h : Segment -> B) (cs : list Transcript) :
  map h (all_segments cs) = flat_map (fun c => map h (segments c)) cs.
Proof.
  unfold all_segments. induction cs as [|c cs IH]; [reflexivity|].
  cbn [flat_map]. now rewrite map_app, IH.
Qed.

(** What is joined from the segments of each chunk and then across the
    chunks is what is joined from the segments of the transcript. *)
Lemma chunks_join_segments (sep : string) (h : Segment -> string) (t : Transcript) :
  segments t <> [] ->
  PyStr.join sep (map (fun c => PyStr.join sep (map h (segments c))) (_chunk_transcript g t))
  = PyStr.join sep (map h (segments t)).
Proof.
  intros Ht.
  rewrite (join_groups sep (fun c => map h (segments c))).
  - now rewrite <- map_all_segments, (chunk_transcript_segments g t Ht).
  - intros c Hin. pose proof (chunk_transcript_well_formed g t Ht) as Hwf.
    rewrite Forall_forall in Hwf. destruct (Hwf c Hin) as [Hne _].
    destruct (segments c); [congruence | discriminate].
Qed.

Lemma format_with_segments (t : Transcript) :
  segments t <> [] ->
  _format_transcript_for_prompt t
  = PyStr.join PyStr.newline (map format_segment (segments t)).
Proof.
  intros Ht. unfold _format_transcript_for_prompt.
  destruct (segments t); [congruence | reflexivity].
Qed.

End ChunkViews.

(** X10. Chunk texts: for a transcript whose text is the space-joined texts
    of its segments, the texts of the chunks, joined by a space in chunk
    order, give back the transcript's text. *)
Theorem chunk_texts_join_to_text (g : NoteGenerator) (t : Transcript) :
  segments t <> [] ->
  text_is_joined_segments t ->
  PyStr.join " " (map text_or_empty (_chunk_transcript g t)) = text_or_empty t.
Proof.
  intros Ht Hj.
  assert (E : map text_or_empty (_chunk_transcript g t)
              = map (fun c => PyStr.join " " (map seg_text (segments c)))
                  (_chunk_transcript g t)).
  { apply map_ext_in. intros c Hin.
    pose proof (chunk_transcript_well_formed g t Ht) as Hwf.
    rewrite Forall_forall in Hwf. destruct (Hwf c Hin) as [_ Hc].
    now rewrite Hc at 1. }
  rewrite E, (chunks_join_segments g " " seg_text t Ht).
  unfold text_or_empty. now rewrite Hj.
Qed.

(** X10, witness: the sample transcript. *)
Lemma chunk_texts_join_to_text_witness :
  segments sample_transcript <> []
  /\ text_is_joined_segments sample_transcript
  /\ PyStr.join " " (map text_or_empty (_chunk_transcript sample_generator sample_transcript))
     = text_or_empty sample_transcript.
Proof.
  assert (H0 : segments sample_transcript <> []) by (vm_compute; discriminate).
  assert (H1 : text_is_joined_segments sample_transcript) by reflexivity.
  split; [exact H0|]. split; [exact H1|].
  exact (chunk_texts_join_to_text sample_generator sample_transcript H0 H1).
Defined.

(** X11. Chunk prompts: for a transcript that has segments, the formatted
    transcripts of the chunks, joined by a newline in chunk order, are the
    formatted transcript of the whole: the chunk-summary prompts carry
    exactly the timestamped lines of the single-pass prompt. *)
Theorem chunk_prompts_cover_transcript (g : NoteGenerator) (t : Transcript) :
  segments t <> [] ->
  PyStr.join PyStr.newline (map _format_transcript_for_prompt (_chunk_transcript g t))
  = _format_transcript_for_prompt t.
Proof.
  intros Ht.
  assert (E : map _format_transcript_for_prompt (_chunk_transcript g t)
              = map (fun c => PyStr.join PyStr.newline (map format_segment (segments c)))
                  (_chunk_transcript g t)).
  { apply map_ext_in. intros c Hin.
    pose proof (chunk_transcript_well_formed g t Ht) as Hwf.
    rewrite Forall_forall in Hwf. destruct (Hwf c Hin) as [Hne _].
    now apply format_with_segments. }
  rewrite E, (chunks_join_segments g PyStr.newline format_segment t Ht).
  symmetry. now apply format_with_segments.
Qed.

(** X11, witness: the sample transcript. *)
Lemma chunk_prompts_cover_transcript_witness :
  segments sample_transcript <> []
  /\ PyStr.join PyStr.newline
       (map _format_transcript_for_prompt (_chunk_transcript sample_generator sample_transcript))
     = _format_transcript_for_prompt sample_transcript.
Proof.
  assert (H0 : segments sample_transcript <> []) by (vm_compute; discriminate).
  split; [exact H0|].
  exact (chunk_prompts_cover_transcript sample_generator sample_transcript H0).
Defined.

(* ------------------------------------------------------------------ *)
(** * Properties of format_timestamp *)

Section TimestampFacts.

Lemma floordiv_whole (x : Q) (k : positive) :
  floordiv x (inject_Z (Zpos k)) = Qfloor x / Zpos k.
Proof.
  unfold floordiv. destruct x as [a b]. cbn.
  rewrite Z.mul_1_r, Pos2Z.inj_mul, Z.div_div by lia. reflexivity.
Qed.

Lemma Qfloor_pymod (x : Q) (k : positive) :
  Qfloor (pymod x (inject_Z (Zpos k))) = Qfloor x mod Zpos k.
Proof.
  unfold pymod. rewrite floordiv_whole. destruct x as [a b].
  set (f := Qfloor (a # b) / Zpos k).
  unfold Qminus, Qplus, Qopp, Qmult, inject_Z. cbn [Qnum Qden Qfloor].
  rewrite !Pos.mul_1_r, !Z.mul_1_r.
  replace (a + - (Zpos k * f) * Zpos b) with (a + (- (Zpos k * f)) * Zpos b) by ring.
  rewrite Z.div_add by lia. rewrite Z.mod_eq by lia. unfold f. cbn [Qfloor]. lia.
Qed.

Lemma minutes_of_whole (n : Z) : (n mod 3600) / 60 = (n / 60) mod 60.
Proof.
  change 3600 with (60 * 60). rewrite Z.rem_mul_r by lia.
  rewrite Z.add_comm, Z.mul_comm, Z.div_add_l by lia.
  rewrite (Z.div_small (n mod 60) 60) by (apply Z.mod_pos_bound; lia). lia.
Qed.

Lemma length_append (a b : string) :
  String.length (a ++ b) = (String.length a + String.length b)%nat.
Proof. induction a as [|c a IH]; simpl; [reflexivity | now rewrite IH]. Qed.

Lemma format_02d_length (z : Z) :
  0 <= z < 100 -> String.length (PyStr.format_02d z) = 2%nat.
Proof.
  intros Hz.
  assert (H : forallb (fun n => Nat.eqb (String.length (PyStr.format_02d (Z.of_nat n))) 2)
                (seq 0 100) = true) by (vm_compute; reflexivity).
  rewrite forallb_forall in H. specialize (H (Z.to_nat z)).
  rewrite Z2Nat.id in H by lia. apply Nat.eqb_eq, H, in_seq. lia.
Qed.

End TimestampFacts.

(** X12. Timestamps: for a time that is not negative and below 2^53
    seconds, the range in which the floor division and the remainder of
    binary64 are exact, the rendering depends on the whole seconds [n]
    only.  Below one hour it is [MM:SS], five characters, with
    [60 * MM + SS = n]; from one hour on it is [HH:MM:SS] with
    [3600 * HH + 60 * MM + SS = n], eight characters below a hundred
    hours; minutes and seconds are always below 60. *)
Theorem format_timestamp_fields (seconds : Q) :
  (0 <= seconds)%Q ->
  (seconds < inject_Z (2 ^ 53))%Q ->
  let n := Qfloor seconds in
  let hh := n / 3600 in
  let mm := (n / 60) mod 60 in
  let ss := n mod 60 in
  format_timestamp seconds
  = (if n <? 3600
     then PyStr.format_02d mm ++ ":" ++ PyStr.format_02d ss
     else PyStr.format_02d hh ++ ":" ++ PyStr.format_02d mm ++ ":" ++ PyStr.format_02d ss)
  /\ 3600 * hh + 60 * mm + ss = n
  /\ 0 <= mm < 60 /\ 0 <= ss < 60
  /\ (n < 3600 -> hh = 0 /\ String.length (format_timestamp seconds) = 5%nat)
  /\ (3600 <= n < 360000 -> String.length (format_timestamp seconds) = 8%nat).
Proof.
  intros Hs _ n hh mm ss.
  assert (Hn : 0 <= n).
  { unfold n. change 0 with (Qfloor 0). now apply Qfloor_resp_le. }
  assert (Hmm : 0 <= mm < 60) by (apply Z.mod_pos_bound; lia).
  assert (Hss : 0 <= ss < 60) by (apply Z.mod_pos_bound; lia).
  assert (Hsum : 3600 * hh + 60 * mm + ss = n).
  { unfold hh, mm, ss. rewrite <- minutes_of_whole.
    pose proof (Z.div_mod n 3600 ltac:(lia)) as H1.
    pose proof (Z.div_mod (n mod 3600) 60 ltac:(lia)) as H2.
    assert (H3 : (n mod 3600) mod 60 = n mod 60).
    { change 3600 with (60 * 60). rewrite Z.rem_mul_r by lia.
      rewrite (Z.mul_comm 60), Z.mod_add by lia. apply Z.mod_mod. lia. }
    lia. }
  assert (E : format_timestamp seconds
              = (if n <? 3600
                 then PyStr.format_02d mm ++ ":" ++ PyStr.format_02d ss
                 else PyStr.format_02d hh ++ ":" ++ PyStr.format_02d mm ++ ":"
                        ++ PyStr.format_02d ss)).
  { unfold format_timestamp.
    rewrite !(floordiv_whole _ 3600), (floordiv_whole _ 60), !Qfloor_pymod.
    fold n. rewrite minutes_of_whole. fold hh mm ss.
    destruct (Z.ltb_spec n 3600) as [Hlt | Hge].
    - assert (hh = 0) by (unfold hh; apply Z.div_small; lia).
      destruct (Z.gtb_spec hh 0); [lia | reflexivity].
    - assert (1 <= hh) by (unfold hh; apply Z.div_le_lower_bound; lia).
      destruct (Z.gtb_spec hh 0); [reflexivity | lia]. }
  split; [exact E|]. split; [exact Hsum|]. split; [exact Hmm|]. split; [exact Hss|].
  split.
  - intros Hlt. split; [unfold hh; apply Z.div_small; lia|].
    rewrite E. destruct (Z.ltb_spec n 3600); [|lia].
    rewrite !length_append, !format_02d_length by lia. reflexivity.
  - intros [Hge Hlt]. rewrite E. destruct (Z.ltb_spec n 3600); [lia|].
    assert (0 <= hh < 100).
    { unfold hh. split; [apply Z.div_pos; lia | apply Z.div_lt_upper_bound; lia]. }
    rewrite !length_append, !format_02d_length by lia. reflexivity.
Qed.

(** X12, witness: one hour, two minutes and five and a half seconds. *)
Lemma format_timestamp_fields_witness :
  (0 <= 7451 # 2)%Q /\ (7451 # 2 < inject_Z (2 ^ 53))%Q
  /\ format_timestamp (7451 # 2) = "01:02:05".
Proof.
  assert (H : (0 <= 7451 # 2)%Q) by (vm_compute; discriminate).
  assert (B : (7451 # 2 < inject_Z (2 ^ 53))%Q) by reflexivity.
  split; [exact H|]. split; [exact B|].
  exact (proj1 (format_timestamp_fields (7451 # 2) H B)).
Defined.

(* ------------------------------------------------------------------ *)
(** * Further properties of the model check and of failing calls *)

Section ModelNames.

Lemma truthy_iff (o : option string) :
  truthy o = true <-> exists n, o = Some n /\ n <> "".
Proof.
  destruct o as [[|c s]|]; cbn; split; try discriminate.
  - intros (n & [= <-] & Hn). congruence.
  - intros _. eexists. split; [reflexivity | discriminate].
  - reflexivity.
  - intros (n & H & _). discriminate.
Qed.

Lemma split_first_prefix (sep : ascii) (s : string) :
  exists rest, s = PyStr.split_first sep s ++ rest.
Proof.
  induction s as [|c s (rest & IH)]; cbn.
  - now exists "".
  - destruct (Ascii.eqb c sep).
    + now exists (String c s).
    + exists rest. cbn. now rewrite <- IH.
Qed.

End ModelNames.



(** X14. Installed names: the names the check looks at are, in listing
    order, the non-empty ['model'] value of each entry, or else its
    non-empty ['name'] value; entries with neither are skipped. *)
Theorem collected_names_characterised (entries : list ModelEntry) (n : string) :
  In n (collect_model_names entries)
  <-> n <> ""
      /\ exists e, In e entries
           /\ (entry_model e = Some n
               \/ (truthy (entry_model e) = false /\ entry_name e = Some n)).
Proof.
  induction entries as [|e entries IH]; cbn [collect_model_names].
  - split; [intros [] | intros (_ & e & [] & _)].
  - unfold entry_display_name.
    destruct (truthy (entry_model e)) eqn:Hm.
    + rewrite Hm. apply truthy_iff in Hm as (m & Em & Hne). rewrite Em. cbn [or_default In].
      rewrite IH. split.
      * intros [<- | (Hn & e' & Hin & H)].
        -- split; [exact Hne|]. exists e. split; [now left | now left].
        -- split; [exact Hn|]. exists e'. split; [now right | exact H].
      * intros (Hn & e' & [<- | Hin] & H).
        -- left. destruct H as [H | [H _]]; [congruence|].
           rewrite Em in H. cbn in H. destruct m; [congruence | discriminate].
        -- right. split; [exact Hn|]. now exists e'.
    + destruct (truthy (entry_name e)) eqn:Hn.
      * apply truthy_iff in Hn as (m & En & Hne). rewrite En. cbn [or_default In].
        rewrite IH. split.
        -- intros [<- | (Hn & e' & Hin & H)].
           ++ split; [exact Hne|]. exists e. split; [now left | now right].
           ++ split; [exact Hn|]. exists e'. split; [now right | exact H].
        -- intros (Hn & e' & [<- | Hin] & H).
           ++ left. destruct H as [H | [_ H]]; [|congruence].
              rewrite H in Hm. cbn in Hm. destruct n; [congruence | discriminate].
           ++ right. split; [exact Hn|]. now exists e'.
      * rewrite IH. split.
        -- intros (Hne & e' & Hin & H). split; [exact Hne|]. exists e'. split; [now right | exact H].
        -- intros (Hne & e' & [<- | Hin] & H).
           ++ exfalso. destruct H as [H | [_ H]].
              ** rewrite H in Hm. cbn in Hm. destruct n; [congruence | discriminate].
              ** rewrite H in Hn. cbn in Hn. destruct n; [congruence | discriminate].
           ++ split; [exact Hne|]. now exists e'.
Qed.

(** X15. Same base name: a request is satisfied whenever it is installed
    under exactly its name or some installed model has the same base name,
    whatever the tags; and a listing that satisfies a request still does
    so when more models are installed. *)
Theorem same_base_name_is_available (self : NoteGenerator) (names more : list string) :
  (spec_model_available (model self) names -> model_matches self names = true)
  /\ (model_matches self names = true -> model_matches self (names ++ more) = true)
  /\ (model_matches self names = true -> model_matches self (more ++ names) = true).
Proof.
  split; [|split].
  - intros [Hin | (name & Hin & Hb)]; apply model_matches_iff.
    + now left.
    + right. destruct (split_first_prefix ":" name) as (rest & Hr).
      exists name, rest. split; [exact Hin|].
      unfold base_name in *. now rewrite <- Hb.
  - intros H. apply model_matches_iff in H. apply model_matches_iff.
    destruct H as [Hin | (name & rest & Hin & Hr)].
    + left. apply in_or_app. now left.
    + right. exists name, rest. split; [apply in_or_app; now left | exact Hr].
  - intros H. apply model_matches_iff in H. apply model_matches_iff.
    destruct H as [Hin | (name & rest & Hin & Hr)].
    + left. apply in_or_app. now right.
    + right. exists name, rest. split; [apply in_or_app; now right | exact Hr].
Qed.

Section FailingCalls.

Variable client : Backend.
Variable self : NoteGenerator.

(** The loop over the chunks stops at the first call that fails. *)
Lemma chunk_pass_fails (remaining : list Transcript) :
  forall (k i : nat) (notes : list string) (tr : Trace) (chunk : Transcript) (msg : string),
  nth_error remaining k = Some chunk ->
  (forall j c,
      (j < k)%nat ->
      nth_error remaining j = Some c ->
      exists r,
        backend_generate client
          (tr ++ map EvGenerate (summary_calls_of self (firstn j remaining)))%list
          (blocking_call self (chunk_prompt c))
        = inr r) ->
  backend_generate client
    (tr ++ map EvGenerate (summary_calls_of self (firstn k remaining)))%list
    (blocking_call self (chunk_prompt chunk))
  = inl msg ->
  chunk_pass client self i remaining notes tr
  = (inl (ClientError msg),
     (tr ++ map EvGenerate (summary_calls_of self (firstn (S k) remaining)))%list).
Proof.
  unfold summary_calls_of.
  induction remaining as [|c0 rest IH]; intros k i notes tr chunk msg Hk Hok Hfail.
  - destruct k; discriminate.
  - destruct k as [|k].
    + cbn [nth_error] in Hk. injection Hk as ->.
      cbn [firstn map] in Hfail. rewrite app_nil_r in Hfail.
      cbn [chunk_pass]. unfold bind, client_generate. rewrite Hfail.
      reflexivity.
    + destruct (Hok 0%nat c0 ltac:(lia) eq_refl) as (r & Hr).
      cbn [firstn map] in Hr. rewrite app_nil_r in Hr.
      cbn [chunk_pass]. unfold bind, client_generate. rewrite Hr.
      rewrite (IH k (S i) _ _ chunk msg Hk).
      * cbn [firstn map]. now rewrite <- app_assoc.
      * intros j c Hj Hc. destruct (Hok (S j) c ltac:(lia) Hc) as (r' & Hr').
        exists r'. cbn [firstn map] in Hr'. now rewrite <- app_assoc.
      * cbn [firstn map] in Hfail. now rewrite <- app_assoc.
Qed.

End FailingCalls.

(** X16. A failing chunk stops the pass: when the chunk-summary call of
    chunk [k] raises after the earlier ones succeeded, the chunked pass
    raises that error; the calls made are those of chunks 0 to [k], so no
    later chunk is summarised and no merge call is made. *)
Theorem chunked_pass_stops_at_failure (client : Backend) (self : NoteGenerator)
        (t : Transcript) (stream_output : bool) (tr : Trace)
        (k : nat) (chunk : Transcript) (msg : string) :
  let cs := _chunk_transcript self t in
  nth_error cs k = Some chunk ->
  (forall j c,
      (j < k)%nat ->
      nth_error cs j = Some c ->
      exists r,
        backend_generate client
          (tr ++ map EvGenerate (summary_calls_of self (firstn j cs)))%list
          (blocking_call self (chunk_prompt c))
        = inr r) ->
  backend_generate client
    (tr ++ map EvGenerate (summary_calls_of self (firstn k cs)))%list
    (blocking_call self (chunk_prompt chunk))
  = inl msg ->
  fst (_generate_chunked client self t stream_output tr) = inl (ClientError msg)
  /\ generate_calls (snd (_generate_chunked client self t stream_output tr))
     = (generate_calls tr ++ summary_calls_of self (firstn (S k) cs))%list.
Proof.
  intros cs Hk Hok Hfail. unfold _generate_chunked, bind. fold cs.
  rewrite (chunk_pass_fails client self cs k 0%nat [] tr chunk msg Hk Hok Hfail).
  cbn [fst snd]. split; [reflexivity|].
  now rewrite generate_calls_app, generate_calls_map.
Qed.

(** X16, witness: the second chunk of the sample transcript on a backend
    that times out after its first reply. *)
Lemma chunked_pass_stops_at_failure_witness :
  let cs := _chunk_transcript sample_generator sample_transcript in
  nth_error cs 1 = Some sample_chunk_2
  /\ (forall j c,
        (j < 1)%nat ->
        nth_error cs j = Some c ->
        exists r,
          backend_generate flaky_backend
            ([] ++ map EvGenerate (summary_calls_of sample_generator (firstn j cs)))%list
            (blocking_call sample_generator (chunk_prompt c))
          = inr r)
  /\ backend_generate flaky_backend
       ([] ++ map EvGenerate (summary_calls_of sample_generator (firstn 1 cs)))%list
       (blocking_call sample_generator (chunk_prompt sample_chunk_2))
     = inl "timed out"
  /\ fst (_generate_chunked flaky_backend sample_generator sample_transcript true [])
     = inl (ClientError "timed out")
  /\ generate_calls (snd (_generate_chunked flaky_backend sample_generator sample_transcript true []))
     = (generate_calls [] ++ summary_calls_of sample_generator (firstn 2 cs))%list.
Proof.
  intros cs.
  assert (H1 : nth_error cs 1 = Some sample_chunk_2) by (vm_compute; reflexivity).
  assert (H2 : forall j c,
             (j < 1)%nat ->
             nth_error cs j = Some c ->
             exists r,
               backend_generate flaky_backend
                 ([] ++ map EvGenerate (summary_calls_of sample_generator (firstn j cs)))%list
                 (blocking_call sample_generator (chunk_prompt c))
               = inr r).
  { intros j c Hj _. assert (j = 0%nat) as -> by lia. eexists. reflexivity. }
  assert (H3 : backend_generate flaky_backend
                 ([] ++ map EvGenerate (summary_calls_of sample_generator (firstn 1 cs)))%list
                 (blocking_call sample_generator (chunk_prompt sample_chunk_2))
               = inl "timed out") by reflexivity.
  split; [exact H1|]. split; [exact H2|]. split; [exact H3|].
  exact (chunked_pass_stops_at_failure flaky_backend sample_generator sample_transcript true []
           1 sample_chunk_2 "timed out" H1 H2 H3).
Defined.

(* ------------------------------------------------------------------ *)
(** * Properties of the transcriber's collection loop *)

Section StripFacts.

Lemma lstrip_decomp (s : string) :
  exists pre, s = pre ++ lstrip s /\ blank pre = true.
Proof.
  induction s as [|c s (pre & IH & Hb)]; cbn.
  - now exists "".
  - destruct (PyStr.is_space c) eqn:E.
    + exists (String c pre). cbn. rewrite E, Hb. split; [now rewrite <- IH | reflexivity].
    + now exists "".
Qed.

Lemma lstrip_head (s : string) (c : ascii) (rest : string) :
  lstrip s = String c rest -> PyStr.is_space c = false.
Proof.
  induction s as [|d s IH]; cbn; [discriminate|].
  destruct (PyStr.is_space d) eqn:E; [exact IH|].
  intros [= <- _]. exact E.
Qed.

Lemma rstrip_decomp (s : string) :
  exists post, s = rstrip s ++ post /\ blank post = true.
Proof.
  induction s as [|c s (post & IH & Hb)]; cbn.
  - now exists "".
  - destruct (rstrip s) as [|d r] eqn:E.
    + destruct (PyStr.is_space c) eqn:Ec.
      * exists (String c post). cbn in *. rewrite Ec, Hb. split; [now rewrite <- IH | reflexivity].
      * exists post. cbn in *. split; [now rewrite <- IH | exact Hb].
    + exists post. cbn in *. split; [now rewrite <- IH | exact Hb].
Qed.

Lemma rstrip_last (s init : string) (c : ascii) :
  rstrip s = init ++ String c "" -> PyStr.is_space c = false.
Proof.
  revert init. induction s as [|d s IH]; intros init; cbn.
  - destruct init; discriminate.
  - destruct (rstrip s) as [|e r] eqn:E.
    + destruct (PyStr.is_space d) eqn:Ed.
      * destruct init; discriminate.
      * destruct init as [|x init]; cbn.
        -- intros H. inversion H. subst. exact Ed.
        -- intros H. inversion H. destruct init; discriminate.
    + destruct init as [|x init]; cbn.
      * intros H. inversion H.
      * intros H. inversion H. now apply (IH init).
Qed.

Lemma strip_stripped (s : string) : stripped (strip s).
Proof.
  unfold strip. split.
  - intros c rest H.
    destruct (rstrip_decomp (lstrip s)) as (post & Hd & _).
    rewrite H in Hd. cbn in Hd. now apply (lstrip_head s c (rest ++ post)).
  - intros init c H. now apply (rstrip_last (lstrip s) init).
Qed.

Lemma strip_decomp (s : string) :
  exists pre post, s = pre ++ strip s ++ post /\ blank pre = true /\ blank post = true.
Proof.
  destruct (lstrip_decomp s) as (pre & H1 & B1).
  destruct (rstrip_decomp (lstrip s)) as (post & H2 & B2).
  exists pre, post. unfold strip. now rewrite <- H2.
Qed.

End StripFacts.

Section CollectFacts.

Variable word_timestamps : bool.

Lemma collect_segments_spec (gen : list WhisperSegment) :
  forall segs parts,
  collect_segments word_timestamps gen segs parts
  = ((segs ++ map (make_segment_dict word_timestamps) gen)%list,
     (parts ++ map (fun s => strip (ws_text s)) gen)%list).
Proof.
  induction gen as [|s gen IH]; intros segs parts; cbn.
  - now rewrite !app_nil_r.
  - now rewrite IH, <- !app_assoc.
Qed.

Lemma transcription_spec (gen : list WhisperSegment) :
  transcription word_timestamps gen
  = (PyStr.join " " (map (fun s => strip (ws_text s)) gen),
     map (make_segment_dict word_timestamps) gen).
Proof. unfold transcription. now rewrite collect_segments_spec. Qed.

End CollectFacts.

(** X17. Transcript shape: the result of the collection loop has one
    segment dict per recognised segment, in order, and its text is the
    space-joined texts of those dicts; each dict's text is the recognised
    text with the whitespace at both ends removed, so it neither starts
    nor ends with whitespace. *)
Theorem transcription_shape (word_timestamps : bool) (gen : list WhisperSegment) :
  let result := transcription word_timestamps gen in
  List.length (snd result) = List.length gen
  /\ fst result = PyStr.join " " (map sd_text (snd result))
  /\ text_is_joined_segments (as_transcript result)
  /\ (forall i d, nth_error (snd result) i = Some d ->
      exists s pre post,
        nth_error gen i = Some s
        /\ sd_start d = ws_start s /\ sd_end d = ws_end s
        /\ ws_text s = pre ++ sd_text d ++ post
        /\ blank pre = true /\ blank post = true
        /\ stripped (sd_text d)).
Proof.
  intros result. unfold result. rewrite transcription_spec. cbn [fst snd].
  split; [apply length_map|]. split; [now rewrite map_map|]. split.
  - unfold text_is_joined_segments, as_transcript. cbn. now rewrite !map_map.
  - intros i d Hd. rewrite nth_error_map in Hd.
    destruct (nth_error gen i) as [s|]; [|discriminate].
    injection Hd as <-. cbn.
    destruct (strip_decomp (ws_text s)) as (pre & post & H & B1 & B2).
    exists s, pre, post. repeat split; auto; apply strip_stripped.
Qed.

(** X18. Stored stamps: in what the collection loop returns, the stored
    start stamp of a segment is the one the formatter would compute, so
    the prompt of the transcript is the same with and without the
    ['start_formatted'] keys. *)
Theorem stored_stamps_are_redundant (word_timestamps : bool) (gen : list WhisperSegment) :
  let t := as_transcript (transcription word_timestamps gen) in
  _format_transcript_for_prompt
    {| text := text t; segments := map without_stamp (segments t);
       start_time := start_time t; end_time := end_time t |}
  = _format_transcript_for_prompt t.
Proof.
  intros t. unfold t. rewrite transcription_spec.
  unfold _format_transcript_for_prompt, as_transcript. cbn [segments text fst snd].
  destruct gen as [|s gen]; [reflexivity|].
  cbn [map]. f_equal. rewrite !map_map. reflexivity.
Qed.

(** The sample stream: texts are stripped, words are kept where given. *)
Example sample_transcription :
  fst (transcription true sample_stream)
  = "Welcome to the lecture. Today we talk about proofs."
  /\ map sd_start_formatted (snd (transcription true sample_stream)) = ["00:00"; "00:02"]
  /\ map has_words (map sd_words (snd (transcription true sample_stream))) = [true; false]
  /\ map sd_words (snd (transcription false sample_stream)) = [None; None].
Proof. vm_compute. repeat split. Qed.

(* ------------------------------------------------------------------ *)
(** * The digest input has no separators *)

Section DecimalRendering.

Lemma to_int_of_uint (v : Decimal.uint) :
  Decimal.unorm v = v -> Z.to_int (Z.of_uint v) = Decimal.Pos v.
Proof.
  intros Hn. pose proof (DecimalZ.to_of (Decimal.Pos v)) as H.
  cbn in H. now rewrite Hn in H.
Qed.

Lemma of_int_of_uint (v : Decimal.uint) :
  Decimal.unorm v = v -> v <> Decimal.Nil ->
  PyStr.of_int (Z.of_uint v) = NilEmpty.string_of_uint v.
Proof.
  intros Hn Hne. unfold PyStr.of_int. rewrite (to_int_of_uint v Hn).
  unfold NilZero.string_of_int, NilZero.string_of_uint.
  destruct v; try reflexivity. congruence.
Qed.

(** The numeral of a non-negative integer. *)
Lemma numeral_of (z : Z) :
  0 <= z ->
  exists u,
    Decimal.unorm u = u /\ u <> Decimal.Nil /\ Z.of_uint u = z
    /\ PyStr.of_int z = NilEmpty.string_of_uint u
    /\ (0 < z -> Decimal.nzhead u = u).
Proof.
  intros Hz. destruct z as [|p|p]; [| |lia].
  - exists (Decimal.D0 Decimal.Nil).
    split; [reflexivity|]. split; [discriminate|]. split; [reflexivity|].
    split; [reflexivity|]. intros H. lia.
  - exists (Pos.to_uint p).
    assert (Hn : Decimal.unorm (Pos.to_uint p) = Pos.to_uint p).
    { rewrite <- DecimalPos.Unsigned.to_of, DecimalPos.Unsigned.of_to. reflexivity. }
    assert (Hv : Z.of_uint (Pos.to_uint p) = Zpos p).
    { unfold Z.of_uint. now rewrite DecimalPos.Unsigned.of_to. }
    split; [exact Hn|]. split; [apply DecimalPos.Unsigned.to_uint_nonnil|]. split; [exact Hv|].
    split.
    + rewrite <- Hv at 1. apply of_int_of_uint; [exact Hn | apply DecimalPos.Unsigned.to_uint_nonnil].
    + intros _. rewrite <- Hn at 2. symmetry. apply DecimalFacts.unorm_nzhead.
      intros H0. apply DecimalFacts.unorm_0 in H0. rewrite Hn in H0.
      now apply (DecimalPos.Unsigned.to_uint_nonzero p).
Qed.

Lemma string_of_revapp (x : Decimal.uint) :
  forall y,
  NilEmpty.string_of_uint (Decimal.revapp x y)
  = NilEmpty.string_of_uint (Decimal.rev x) ++ NilEmpty.string_of_uint y.
Proof.
  unfold Decimal.rev.
  induction x as [|x IH|x IH|x IH|x IH|x IH|x IH|x IH|x IH|x IH|x IH]; intros y;
    cbn [Decimal.revapp]; [reflexivity|..];
    rewrite IH, (IH (_ Decimal.Nil)), append_assoc; reflexivity.
Qed.

Lemma string_of_uint_length (u : Decimal.uint) :
  Z.of_nat (String.length (NilEmpty.string_of_uint u)) = Z.of_N (DecimalPos.Unsigned.usize u).
Proof.
  induction u; cbn [NilEmpty.string_of_uint String.length DecimalPos.Unsigned.usize];
    [reflexivity|..]; rewrite Nat2Z.inj_succ, N2Z.inj_succ; now f_equal.
Qed.

(** A digit written after a numeral. *)
Lemma of_int_snoc_digit (s d : Z) :
  1 <= s -> 0 <= d <= 9 ->
  PyStr.of_int (10 * s + d) = PyStr.of_int s ++ PyStr.of_int d.
Proof.
  intros Hs Hd.
  destruct (numeral_of s ltac:(lia)) as (u & Hn & Hne & Hv & Hstr & Hnz).
  specialize (Hnz ltac:(lia)).
  assert (Hdig : exists w,
             Z.of_N (DecimalPos.Unsigned.of_lu (w (Decimal.rev u)))
             = d + 10 * Z.of_N (DecimalPos.Unsigned.of_lu (Decimal.rev u))
             /\ NilEmpty.string_of_uint (w Decimal.Nil) = PyStr.of_int d
             /\ (forall x y, Decimal.revapp (w x) y = Decimal.revapp x (w y))).
  { assert (Hc : d = 0 \/ d = 1 \/ d = 2 \/ d = 3 \/ d = 4 \/ d = 5 \/ d = 6 \/ d = 7
                 \/ d = 8 \/ d = 9) by lia.
    destruct Hc as [-> | [-> | [-> | [-> | [-> | [-> | [-> | [-> | [-> | ->]]]]]]]]];
      [exists Decimal.D0 | exists Decimal.D1 | exists Decimal.D2 | exists Decimal.D3
       | exists Decimal.D4 | exists Decimal.D5 | exists Decimal.D6 | exists Decimal.D7
       | exists Decimal.D8 | exists Decimal.D9];
      (split; [cbn [DecimalPos.Unsigned.of_lu]; lia | split; reflexivity]). }
  destruct Hdig as (w & Hval & Hw & Hrev).
  set (v := Decimal.rev (w (Decimal.rev u))).
  assert (Ev : v = Decimal.revapp (Decimal.rev u) (w Decimal.Nil)).
  { unfold v, Decimal.rev at 1. apply Hrev. }
  assert (Hvv : Z.of_uint v = 10 * s + d).
  { unfold Z.of_uint, v. rewrite DecimalPos.Unsigned.of_lu_rev, Hval.
    rewrite <- DecimalPos.Unsigned.of_uint_alt. unfold Z.of_uint in Hv. lia. }
  assert (Hvn : Decimal.nzhead v = v).
  { rewrite Ev. rewrite DecimalFacts.nzhead_revapp.
    - f_equal. rewrite <- (DecimalFacts.rev_rev (DecimalFacts.nztail (Decimal.rev u))).
      now rewrite DecimalFacts.rev_nztail_rev, Hnz.
    - intros H0. pose proof (DecimalFacts.rev_nztail_rev u) as H1.
      rewrite H0, Hnz in H1. cbn in H1. congruence. }
  assert (Hvne : v <> Decimal.Nil).
  { rewrite Ev. intros H0. apply DecimalFacts.revapp_nil_inv in H0 as [H0 _].
    apply DecimalFacts.rev_nil_inv in H0. congruence. }
  rewrite <- Hvv, of_int_of_uint.
  - rewrite Ev, string_of_revapp, DecimalFacts.rev_rev, Hw. now rewrite Hstr.
  - rewrite DecimalFacts.unorm_nzhead; rewrite Hvn; [reflexivity | exact Hvne].
  - exact Hvne.
Qed.

(** A digit that is not 0 written before a numeral. *)
Lemma of_int_cons_digit (d m : Z) :
  1 <= d <= 9 -> 0 <= m ->
  PyStr.of_int (d * 10 ^ Z.of_nat (String.length (PyStr.of_int m)) + m)
  = PyStr.of_int d ++ PyStr.of_int m.
Proof.
  intros Hd Hm.
  destruct (numeral_of m Hm) as (u & Hn & Hne & Hv & Hstr & _).
  assert (Hdig : exists w,
             Z.of_uint (w u)
             = Z.of_uint u + d * 10 ^ Z.of_N (DecimalPos.Unsigned.usize u)
             /\ NilEmpty.string_of_uint (w u) = PyStr.of_int d ++ NilEmpty.string_of_uint u
             /\ Decimal.unorm (w u) = w u /\ w u <> Decimal.Nil).
  { assert (Hc : d = 1 \/ d = 2 \/ d = 3 \/ d = 4 \/ d = 5 \/ d = 6 \/ d = 7
                 \/ d = 8 \/ d = 9) by lia.
    destruct Hc as [-> | [-> | [-> | [-> | [-> | [-> | [-> | [-> | ->]]]]]]]];
      [exists Decimal.D1 | exists Decimal.D2 | exists Decimal.D3
       | exists Decimal.D4 | exists Decimal.D5 | exists Decimal.D6 | exists Decimal.D7
       | exists Decimal.D8 | exists Decimal.D9];
      (split; [|split; [reflexivity | split; [reflexivity | discriminate]]]);
      unfold Z.of_uint; cbn [Pos.of_uint];
      rewrite DecimalPos.Unsigned.of_uint_acc_rev, <- DecimalPos.Unsigned.of_uint_alt;
      rewrite N2Z.inj_add, N2Z.inj_mul, N2Z.inj_pow; reflexivity. }
  destruct Hdig as (w & Hval & Hw & Hwn & Hwne).
  rewrite Hstr, string_of_uint_length, <- Hw.
  replace (d * 10 ^ Z.of_N (DecimalPos.Unsigned.usize u) + m) with (Z.of_uint (w u))
    by (rewrite Hval; lia).
  now apply of_int_of_uint.
Qed.

End DecimalRendering.

(** X19. No separators: the size and the modification time are written
    into the digest input one after the other, so a last digit can move
    from one to the other.  For whole-second times below 10^16, a size
    [10 * s + d] with a time [m] gives the same digest input, hence the
    same key, as the size [s] with the time whose digits are [d] followed
    by those of [m], whatever the file's bytes. *)
Theorem size_digit_can_move_to_mtime (chunk : list Byte.byte) (s d : Z) (m m' : N) :
  1 <= s -> 1 <= d <= 9 ->
  Z.of_N m' = d * 10 ^ Z.of_nat (String.length (PyStr.of_int (Z.of_N m))) + Z.of_N m ->
  Z.of_N m' < 10 ^ 16 ->
  10 * s + d <> s /\ m <> m'
  /\ hash_input whole_seconds_str chunk (10 * s + d) m
     = hash_input whole_seconds_str chunk s m'
  /\ fingerprint whole_seconds_str chunk (10 * s + d) m
     = fingerprint whole_seconds_str chunk s m'.
Proof.
  intros Hs Hd Hm _.
  assert (Hpow : 0 < 10 ^ Z.of_nat (String.length (PyStr.of_int (Z.of_N m))))
    by (apply Z.pow_pos_nonneg; lia).
  assert (E : hash_input whole_seconds_str chunk (10 * s + d) m
              = hash_input whole_seconds_str chunk s m').
  { unfold hash_input, whole_seconds_str. rewrite Hm.
    rewrite of_int_snoc_digit, of_int_cons_digit by lia.
    now rewrite !append_assoc. }
  split; [lia|]. split; [intros ->; nia|]. split; [exact E|].
  unfold fingerprint. now rewrite E.
Qed.

(** X19, witness: 20000001 bytes modified at 2.0 against 2000000 bytes
    modified at 12.0. *)
Lemma size_digit_can_move_to_mtime_witness :
  1 <= 2000000 /\ 1 <= 1 <= 9
  /\ Z.of_N 12%N = 1 * 10 ^ Z.of_nat (String.length (PyStr.of_int (Z.of_N 2%N))) + Z.of_N 2%N
  /\ Z.of_N 12%N < 10 ^ 16
  /\ 10 * 2000000 + 1 <> 2000000 /\ 2%N <> 12%N
  /\ hash_input whole_seconds_str lecture_bytes (10 * 2000000 + 1) 2%N
     = hash_input whole_seconds_str lecture_bytes 2000000 12%N
  /\ fingerprint whole_seconds_str lecture_bytes (10 * 2000000 + 1) 2%N
     = fingerprint whole_seconds_str lecture_bytes 2000000 12%N.
Proof.
  assert (H1 : 1 <= 2000000) by lia.
  assert (H2 : 1 <= 1 <= 9) by lia.
  assert (H3 : Z.of_N 12
               = 1 * 10 ^ Z.of_nat (String.length (PyStr.of_int (Z.of_N 2%N))) + Z.of_N 2%N)
    by reflexivity.
  assert (H4 : Z.of_N 12%N < 10 ^ 16) by reflexivity.
  split; [exact H1|]. split; [exact H2|]. split; [exact H3|]. split; [exact H4|].
  exact (size_digit_can_move_to_mtime lecture_bytes 2000000 1 2%N 12%N H1 H2 H3 H4).
Defined.
